(** * auto_fix_bot: the request intake conversation of [index.py]

    A shallow embedding of the Telegram bot in [src/index.py]: the plate
    normalizer, the four step handlers of the conversation, the dispatcher
    with its single retry, and the ban list commands.

    Python strings are sequences of Unicode code points, so [len], [strip]
    and [replace] are modelled on [list Z].  The handlers run in a small
    state-and-exception monad over a [World] that holds the session
    dictionary, the shared ban set, the ban list file, the trace of calls to
    the Telegram API and the outcomes the network will give to the coming
    calls. *)

From Stdlib Require Import ZArith List Lia Ascii String DecimalString.
From stdpp Require Import base option list gmap sets strings sorting.
Import ListNotations.

Local Open Scope Z_scope.

(** ** Python strings *)

Module PyStr.

(** A Python [str]: its code points. *)
Definition pystr : Type := list Z.

Definition byte_of_ascii (a : ascii) : Z := Z.of_N (N_of_ascii a).

Fixpoint bytes_of_string (s : string) : list Z :=
match s with
| EmptyString => []
| String a s' => byte_of_ascii a :: bytes_of_string s'
end.

(** UTF-8 decoding of a well-formed byte sequence; [need] counts the
  continuation bytes still expected and [acc] holds the bits read so far. *)
Fixpoint utf8_go (need : nat) (acc : Z) (bs : list Z) : pystr :=
match bs with
| [] => []
| b :: bs' =>
    match need with
    | O =>
        if b <? 128 then b :: utf8_go 0 0 bs'
        else if b <? 224 then utf8_go 1 (Z.land b 31) bs'
        else if b <? 240 then utf8_go 2 (Z.land b 15) bs'
        else utf8_go 3 (Z.land b 7) bs'
    | S O => Z.lor (Z.shiftl acc 6) (Z.land b 63) :: utf8_go 0 0 bs'
    | S n => utf8_go n (Z.lor (Z.shiftl acc 6) (Z.land b 63)) bs'
    end
end.

(** A literal of the source file, read as Python reads it (UTF-8). *)
Definition py (s : string) : pystr := utf8_go 0 0 (bytes_of_string s).

Definition nl : pystr := [10].
Definition quot : pystr := [34].

(** [len(s)] *)
Definition len (s : pystr) : Z := Z.of_nat (length s).

(** The code points that [str.isspace] accepts, which are the ones
  [str.strip()] removes. *)
Definition is_space (c : Z) : bool :=
((9 <=? c) && (c <=? 13)) || ((28 <=? c) && (c <=? 32))
|| (c =? 133) || (c =? 160) || (c =? 5760)
|| ((8192 <=? c) && (c <=? 8202))
|| (c =? 8232) || (c =? 8233) || (c =? 8239) || (c =? 8287) || (c =? 12288).

Fixpoint lstrip (s : pystr) : pystr :=
match s with
| [] => []
| c :: s' => if is_space c then lstrip s' else s
end.

Definition rstrip (s : pystr) : pystr := rev (lstrip (rev s)).

(** [s.strip()] *)
Definition strip (s : pystr) : pystr := rstrip (lstrip s).

(** [s.replace(c, "")] for a one-character [c]: every occurrence goes. *)
Fixpoint remove_char (c : Z) (s : pystr) : pystr :=
match s with
| [] => []
| d :: s' => if d =? c then remove_char c s' else d :: remove_char c s'
end.

(** [s.upper()] is the concatenation of the upper-case mappings of the
  characters of [s]; the mapping of one character is up to three code
  points long (the sharp s gives two). The table itself belongs to the
  Python runtime and is a parameter here. *)
Definition upper (upper_char : Z -> pystr) (s : pystr) : pystr :=
flat_map upper_char s.

(** [str(n)] for an integer. *)
Definition str_of_int (n : Z) : pystr :=
bytes_of_string (NilZero.string_of_int (Z.to_int n)).

(** [html.escape(s)], with its default [quote=True]. *)
Definition escape_char (c : Z) : pystr :=
if c =? 38 then py "&amp;"
else if c =? 60 then py "&lt;"
else if c =? 62 then py "&gt;"
else if c =? 34 then py "&quot;"
else if c =? 39 then py "&#x27;"
else [c].

Definition html_escape (s : pystr) : pystr := flat_map escape_char s.

(** [sep.join(parts)] *)
Fixpoint join (sep : pystr) (parts : list pystr) : pystr :=
match parts with
| [] => []
| [p] => p
| p :: ps => p ++ sep ++ join sep ps
end.

(** Truth value of a string: non-empty. *)
Definition truthy (s : pystr) : bool :=
match s with [] => false | _ => true end.

(** A string that [lstrip] leaves alone: empty, or starting with a
    character that is not white space. *)
Definition head_kept (s : pystr) : Prop :=
  match s with
  | [] => True
  | c :: _ => is_space c = false
  end.

(** White space other than U+0020 does not occur in [s]. *)
Definition only_plain_spaces (s : pystr) : bool :=
forallb (fun c => negb (is_space c) || (c =? 32)) s.

End PyStr.
Import PyStr.

(** ** The part of the case table used to run the model

    Basic Latin, Latin-1 and the Cyrillic block; other code points are left
    as they are. *)
Definition upper_table (c : Z) : pystr :=
  if (97 <=? c) && (c <=? 122) then [c - 32]
  else if c =? 181 then [924]
  else if c =? 223 then [83; 83]
  else if (224 <=? c) && (c <=? 254) && negb (c =? 247) then [c - 32]
  else if c =? 255 then [376]
  else if (1072 <=? c) && (c <=? 1103) then [c - 32]
  else if (1104 <=? c) && (c <=? 1119) then [c - 80]
  else [c].

(** ** Constants of the conversation

    The string literals are the ones the source file holds, code point for
    code point. *)

Module Step.
Definition NUMBER : pystr := py "number".
Definition TYPE : pystr := py "type".
Definition DESCRIPTION : pystr := py "description".
Definition CONFIRM : pystr := py "confirm".
End Step.

(** [TXT = UiText()]: the frozen dataclass with its default values. *)
Module TXT.
Definition cancel : pystr := py "‚ùå –°–∫–∞—Å—É–≤–∞—Ç–∏".
Definition restart : pystr := py "üîÅ –ü–æ—á–∞—Ç–∏ –∑–∞–Ω–æ–≤–æ".
Definition send : pystr := py "‚úÖ –í—ñ–¥–ø—Ä–∞–≤–∏—Ç–∏".
Definition edit_number : pystr := py "‚úèÔ∏è –ó–º—ñ–Ω–∏—Ç–∏ –Ω–æ–º–µ—Ä".
Definition edit_type : pystr := py "‚úèÔ∏è –ó–º—ñ–Ω–∏—Ç–∏ —Ç–∏–ø".
Definition edit_desc : pystr := py "‚úèÔ∏è –ó–º—ñ–Ω–∏—Ç–∏ –æ–ø–∏—Å".
End TXT.

Definition PROBLEM_TYPES : list (list pystr) :=
  [ [py "–°–≤—ñ—Ç–ª–æ / –µ–ª–µ–∫—Ç—Ä–∏–∫–∞"];
    [py "–†—ñ–¥–∏–Ω–∏ / –æ–ª–∏–≤–∏"];
    [py "–ö–æ–ª–µ—Å–∞ / —Ö–æ–¥–æ–≤–∞"];
    [py "–°–∞–ª–æ–Ω / –∫—É–∑–æ–≤"];
    [py "–Ü–Ω—à–µ"] ].

Inductive markup :=
| ReplyKeyboardMarkup (keyboard : list (list pystr)) (one_time_keyboard resize_keyboard : bool)
| ReplyKeyboardRemove.

Definition CANCEL_KB : markup :=
  ReplyKeyboardMarkup [[TXT.cancel]; [TXT.restart]] false true.

Definition CONFIRM_KB : markup :=
  ReplyKeyboardMarkup
    [ [TXT.send];
      [TXT.edit_number; TXT.edit_type];
      [TXT.edit_desc];
      [TXT.cancel] ]
    false true.

Module ParseMode.
Definition HTML : pystr := py "HTML".
End ParseMode.

(** *** The plate pattern

    [PLATE_RE] is one character class repeated five to ten times. The items
    of a class are read from left to right: [a-b] is a range, any other
    character stands for itself. *)
Fixpoint class_items (s : pystr) : list (Z * Z) :=
  match s with
  | [] => []
  | a :: s1 =>
      match s1 with
      | 45 :: b :: s2 => (a, b) :: class_items s2
      | _ => (a, a) :: class_items s1
      end
  end.

Definition in_class (items : list (Z * Z)) (c : Z) : bool :=
  existsb (fun r => (fst r <=? c) && (c <=? snd r)) items.

Definition PLATE_CLASS : list (Z * Z) :=
  class_items (py "A-Z–ê-–Ø–Ü–á–Ñ0-9").

(** [PLATE_RE.fullmatch(s)] as a truth value. *)
Definition PLATE_RE_fullmatch (s : pystr) : bool :=
  (5 <=? len s) && (len s <=? 10) && forallb (in_class PLATE_CLASS) s.

(** ** Updates *)

Module User.
Record t := {
  id : Z;
  username : option pystr;
  first_name : option pystr;
  last_name : option pystr
}.
End User.

Module Message.
Record t := { text : option pystr }.
End Message.

Module Update.
Record t := {
  effective_user : option User.t;
  chat_is_private : bool;
  chat_id : Z;
  message : option Message.t
}.
End Update.

(** ** The world the handlers run in *)

(** What a call to the Telegram API can raise: [telegram.error.TimedOut], or
    another exception. *)
Inductive exn := TimedOut | OtherError.

(** The calls that leave the process, each with the exception it raised, if
    any. *)
Inductive event :=
| reply_text (text : pystr) (reply_markup : option markup) (parse_mode : option pystr)
    (raised : option exn)
| send_message (chat_id : Z) (text : pystr) (parse_mode : option pystr)
    (raised : option exn)
| print (text : pystr).

(** The ban list file: absent, unreadable as JSON, holding a value that is
    not a list, or holding a list. A list item is kept as what [int(item)]
    gives for it, [None] when that raises. *)
Inductive blocklist_file :=
| FileMissing
| FileUnreadable
| FileNotList
| FileList (items : list (option Z)).

Record World := {
  user_data : gmap string pystr;            (* context.user_data *)
  bot_blocked : option (gset Z);            (* bot_data["blocked_users"], when a set *)
  file : blocklist_file;                    (* blocked_users.json *)
  trace : list event;                       (* oldest first *)
  net : list (option exn);                  (* what the coming API calls raise *)
  now : pystr;                              (* what the next now_local_str() returns *)
  later : list pystr                        (* what the calls after it return *)
}.

Definition with_user_data (f : gmap string pystr -> gmap string pystr) (w : World) : World :=
  {| user_data := f (user_data w); bot_blocked := bot_blocked w; file := file w;
     trace := trace w; net := net w; now := now w; later := later w |}.

Definition with_blocked (s : gset Z) (w : World) : World :=
  {| user_data := user_data w; bot_blocked := Some s; file := file w;
     trace := trace w; net := net w; now := now w; later := later w |}.

Definition with_file (f : blocklist_file) (w : World) : World :=
  {| user_data := user_data w; bot_blocked := bot_blocked w; file := f;
     trace := trace w; net := net w; now := now w; later := later w |}.

Definition with_event (e : event) (w : World) : World :=
  {| user_data := user_data w; bot_blocked := bot_blocked w; file := file w;
     trace := trace w ++ [e]; net := net w; now := now w; later := later w |}.

Definition with_net (n : list (option exn)) (w : World) : World :=
  {| user_data := user_data w; bot_blocked := bot_blocked w; file := file w;
     trace := trace w; net := n; now := now w; later := later w |}.

(** The clock. [datetime.now()] is read by [now_local_str] only, and every
    reading may give another time: [now w] is what the next reading gives,
    [later w] what the readings after it give, in order. [tick] is the world
    once the time has been read; when [later] is used up the time stays (the
    format has minutes only, so two readings can agree). [with_now] is the
    same world at another time. *)
Definition tick (w : World) : World :=
  {| user_data := user_data w; bot_blocked := bot_blocked w; file := file w;
     trace := trace w; net := net w;
     now := hd (now w) (later w); later := tail (later w) |}.

Definition with_now (t : pystr) (w : World) : World :=
  {| user_data := user_data w; bot_blocked := bot_blocked w; file := file w;
     trace := trace w; net := net w; now := t; later := later w |}.

(** *** State and exceptions

    A computation returns a value or raises; the world it leaves behind is
    kept in both cases, as assignments made before a [raise] are. *)
Inductive result (A : Type) :=
| Ret (a : A)
| Raise (e : exn).
Arguments Ret {A} a.
Arguments Raise {A} e.

Definition M (A : Type) : Type := World -> result A * World.

Definition ret {A} (a : A) : M A := fun w => (Ret a, w).

Definition bind {A B} (m : M A) (k : A -> M B) : M B :=
  fun w =>
    match m w with
    | (Ret a, w') => k a w'
    | (Raise e, w') => (Raise e, w')
    end.

Notation "x <- m ;; k" := (bind m (fun x => k))
  (at level 100, m at next level, right associativity).
Notation "m ;; k" := (bind m (fun _ => k))
  (at level 100, right associativity).

(** [try: body / except <class>: handler], where [catches] tells which
    exceptions the clause names. *)
Definition try_except {A} (body : M A) (catches : exn -> bool) (handler : M A) : M A :=
  fun w =>
    match body w with
    | (Ret a, w') => (Ret a, w')
    | (Raise e, w') => if catches e then handler w' else (Raise e, w')
    end.

Definition is_TimedOut (e : exn) : bool :=
  match e with TimedOut => true | OtherError => false end.

(** [except Exception] *)
Definition is_Exception (e : exn) : bool := true.

Definition modify_user_data (f : gmap string pystr -> gmap string pystr) : M unit :=
  fun w => (Ret tt, with_user_data f w).

(** [context.user_data[key] = value] *)
Definition set_item (key : string) (value : pystr) : M unit :=
  modify_user_data (fun d => <[key := value]> d).

(** One call to the Telegram API: the network gives its outcome, which is
    recorded with the call. [outcome n w] is what the call after the next
    [n] ones will raise; an exhausted [net] means success. *)
Definition outcome (n : nat) (w : World) : option exn := nth n (net w) None.

Definition next_outcome (w : World) : option exn := outcome 0 w.

Definition result_of (o : option exn) : result unit :=
  match o with
  | None => Ret tt
  | Some e => Raise e
  end.

Definition api_call (call : option exn -> event) : M unit :=
  fun w =>
    let o := next_outcome w in
    (result_of o, with_net (tail (net w)) (with_event (call o) w)).

(** [print(text)] *)
Definition py_print (text : pystr) : M unit :=
  fun w => (Ret tt, with_event (print text) w).

(** [ev] hands the rendered request [message] over: to the recipient chat or
    to the console. *)
Definition dispatches (message : pystr) (ev : event) : Prop :=
  match ev with
  | send_message _ text _ _ => text = message
  | print text => text = message
  | reply_text _ _ _ _ => False
  end.

(** The texts of the replies, named after what they say. *)
Module Msg.
Definition ask_number : pystr :=
  py "–í–≤–µ–¥—ñ—Ç—å –¥–µ—Ä–∂–∞–≤–Ω–∏–π –Ω–æ–º–µ—Ä –∞–≤—Ç–æ." ++ nl ++ py "–ü—Ä–∏–∫–ª–∞–¥: <code>110987</code>.".
Definition ask_type : pystr :=
  py "–û–±–µ—Ä—ñ—Ç—å —Ç–∏–ø –ø—Ä–æ–±–ª–µ–º–∏:".
Definition ask_description : pystr :=
  py "üìù –û–ø–∏—à—ñ—Ç—å –ø—Ä–æ–±–ª–µ–º—É." ++ nl ++ nl ++ py "–ü—Ä–∏–∫–ª–∞–¥–∏:" ++ nl ++ nl ++ py "üí° –°–≤—ñ—Ç–ª–æ / –µ–ª–µ–∫—Ç—Ä–∏–∫–∞" ++ nl ++ py "‚Ä¢ –ø–µ—Ä–µ–≥–æ—Ä—ñ–ª–∞ –ª—ñ–≤–∞ –ª–∞–º–ø–∞" ++ nl ++ py "‚Ä¢ –Ω–µ –ø—Ä–∞—Ü—é—î —Å—Ç–æ–ø-—Å–∏–≥–Ω–∞–ª" ++ nl ++ py "‚Ä¢ –ø–µ—Ä–µ–≥–æ—Ä—ñ–≤ –∑–∞–ø–æ–±—ñ–∂–Ω–∏–∫" ++ nl ++ nl ++ py "üõ¢ –†—ñ–¥–∏–Ω–∏ / –æ–ª–∏–≤–∏" ++ nl ++ py "‚Ä¢ –¥–æ–ª–∏—Ç–∏ –∞–Ω—Ç–∏—Ñ—Ä–∏–∑" ++ nl ++ py "‚Ä¢ –¥–æ–ª–∏—Ç–∏ –æ–º–∏–≤–∞—á" ++ nl ++ py "‚Ä¢ –Ω–∏–∑—å–∫–∏–π —Ä—ñ–≤–µ–Ω—å –æ–ª–∏–≤–∏" ++ nl ++ nl ++ py "üõû –ö–æ–ª–µ—Å–∞ / —Ö–æ–¥–æ–≤–∞" ++ nl ++ py "‚Ä¢ —Å–ø—É—Å—Ç–∏–ª–æ –∫–æ–ª–µ—Å–æ" ++ nl ++ py "‚Ä¢ –ø–æ—Ç—Ä—ñ–±–Ω–∞ –ø—ñ–¥–∫–∞—á–∫–∞ –∫–æ–ª–µ—Å–∞" ++ nl ++ py "‚Ä¢ —Å—Ç—É–∫–∞—î —Å—Ç—ñ–π–∫–∞" ++ nl ++ nl ++ py "üöó –°–∞–ª–æ–Ω / –∫—É–∑–æ–≤" ++ nl ++ py "‚Ä¢ –±—Ä—É–¥–Ω–∏–π —Å–∞–ª–æ–Ω" ++ nl ++ py "‚Ä¢ –ø–æ–¥—Ä—è–ø–∏–Ω–∞ –Ω–∞ –¥–≤–µ—Ä—è—Ö" ++ nl ++ py "‚Ä¢ –ø–æ—à–∫–æ–¥–∂–µ–Ω–∏–π –±–∞–º–ø–µ—Ä".
Definition plate_unusual : pystr :=
  py "‚ö†Ô∏è –ù–æ–º–µ—Ä –≤–∏–≥–ª—è–¥–∞—î –Ω–µ–∑–≤–∏—á–Ω–æ. –Ø–∫—â–æ –≤—Å–µ –æ–∫ - –ø—Ä–æ–¥–æ–≤–∂—É–π—Ç–µ.".
Definition type_retry : pystr :=
  py "–û–±–µ—Ä—ñ—Ç—å —Ç–∏–ø –∫–Ω–æ–ø–∫–æ—é –Ω–∏–∂—á–µ üëá".
Definition description_short : pystr :=
  py "–û–ø–∏—Å –Ω–∞–¥—Ç–æ –∫–æ—Ä–æ—Ç–∫–∏–π. –î–æ–¥–∞–π—Ç–µ, –±—É–¥—å –ª–∞—Å–∫–∞, –±—ñ–ª—å—à–µ –¥–µ—Ç–∞–ª–µ–π.".
Definition number_again : pystr :=
  py "–í–≤–µ–¥—ñ—Ç—å –Ω–æ–º–µ—Ä –∞–≤—Ç–æ —â–µ —Ä–∞–∑:".
Definition confirm_retry : pystr :=
  py "–û–±–µ—Ä—ñ—Ç—å –¥—ñ—é –∫–Ω–æ–ø–∫–æ—é –Ω–∏–∂—á–µ üëá".
Definition done : pystr :=
  py "–ì–æ—Ç–æ–≤–æ ‚úÖ –ó–∞—è–≤–∫—É –≤—ñ–¥–ø—Ä–∞–≤–ª–µ–Ω–æ. –î–ª—è –Ω–æ–≤–æ—ó –∑–∞—è–≤–∫–∏ –Ω–∞—Ç–∏—Å–Ω—ñ—Ç—å /start.".
Definition send_failed : pystr :=
  py "‚ö†Ô∏è –ù–µ –≤–¥–∞–ª–æ—Å—è –≤—ñ–¥–ø—Ä–∞–≤–∏—Ç–∏ –∑–∞—è–≤–∫—É. –°–ø—Ä–æ–±—É–π—Ç–µ —â–µ —Ä–∞–∑ –∑–∞ —Ö–≤–∏–ª–∏–Ω—É.".
Definition denied : pystr :=
  py "–î–æ—Å—Ç—É–ø –¥–æ –±–æ—Ç–∞ –æ–±–º–µ–∂–µ–Ω–æ.".
Definition admin_only : pystr :=
  py "–ö–æ–º–∞–Ω–¥–∞ –¥–æ—Å—Ç—É–ø–Ω–∞ –ª–∏—à–µ –∞–¥–º—ñ–Ω—É.".
Definition ban_usage : pystr :=
  py "–í–∏–∫–æ—Ä–∏—Å—Ç–∞–Ω–Ω—è: /ban <user_id>".
Definition unban_usage : pystr :=
  py "–í–∏–∫–æ—Ä–∏—Å—Ç–∞–Ω–Ω—è: /unban <user_id>".
Definition cancelled : pystr :=
  py "–°–∫–∞—Å–æ–≤–∞–Ω–æ. –ù–∞–ø–∏—à—ñ—Ç—å /start, —â–æ–± –ø–æ—á–∞—Ç–∏ –∑–Ω–æ–≤—É.".
Definition restarting : pystr :=
  py "–ü–æ—á–∏–Ω–∞—î–º–æ –∑–∞–Ω–æ–≤–æ.".
Definition start_hint : pystr :=
  py "–©–æ–± –ø–æ—á–∞—Ç–∏, –≤–∏–∫–æ—Ä–∏—Å—Ç–∞–π—Ç–µ /start.".
Definition banned (user_id : Z) : pystr :=
  py "–ö–æ—Ä–∏—Å—Ç—É–≤–∞—á–∞ " ++ str_of_int user_id ++ py " –∑–∞–±–ª–æ–∫–æ–≤–∞–Ω–æ.".
Definition unbanned (user_id : Z) : pystr :=
  py "–ö–æ—Ä–∏—Å—Ç—É–≤–∞—á–∞ " ++ str_of_int user_id ++ py " —Ä–æ–∑–±–ª–æ–∫–æ–≤–∞–Ω–æ.".
Definition not_banned (user_id : Z) : pystr :=
  py "–ö–æ—Ä–∏—Å—Ç—É–≤–∞—á " ++ str_of_int user_id ++ py " –Ω–µ –±—É–≤ —É –±–ª–æ–∫-–ª–∏—Å—Ç—ñ.".
End Msg.

(** ** The bot *)

Section Bot.

(** The upper-case mapping of one character and [int(str)], of the Python
    runtime; [None] stands for [ValueError]. *)
Variable upper_char : Z -> pystr.
Variable py_int : pystr -> option Z.

(** The configuration read from the environment at start-up. *)
Variable TARGET_CHAT_RAW : pystr.
Variable ADMIN_IDS : gset Z.

(** [(value or "")] is [value] itself on a string. *)
Definition normalize_plate (value : pystr) : pystr :=
  remove_char 45 (remove_char 32 (upper upper_char (strip value))).

Definition looks_like_plate (value : pystr) : bool :=
  PLATE_RE_fullmatch (normalize_plate value).

Definition sender_label (update : Update.t) : pystr :=
  match Update.effective_user update with
  | None => py "–Ω–µ–≤—ñ–¥–æ–º–∏–π"
  | Some user =>
      if truthy (default [] (User.username user))
      then py "@" ++ default [] (User.username user)
      else
        let parts :=
          filter (fun part => truthy part = true)
            (omap (fun part => part) [User.first_name user; User.last_name user]) in
        let full_name := strip (join (py " ") parts) in
        if truthy full_name
        then full_name ++ py " (id:" ++ str_of_int (User.id user) ++ py ")"
        else py "id:" ++ str_of_int (User.id user)
  end.

Definition get_target_chat : option Z :=
  if negb (truthy TARGET_CHAT_RAW) then None
  else match py_int TARGET_CHAT_RAW with
       | Some n => Some n
       | None => None
       end.

Definition reset_flow : M unit :=
  modify_user_data (fun _ => ∅) ;;
  set_item "step" Step.NUMBER.

(** [context.user_data.get(key, "-")] *)
Definition get_or_dash (d : gmap string pystr) (key : string) : pystr :=
  default (py "-") (d !! key).

Definition build_preview_html (d : gmap string pystr) : pystr :=
  let plate := html_escape (get_or_dash d "number") in
  let issue_type := html_escape (get_or_dash d "type") in
  let description := html_escape (get_or_dash d "description") in
  py "üßæ <b>–ü–µ—Ä–µ–≤—ñ—Ä—Ç–µ –∑–∞—è–≤–∫—É –ø–µ—Ä–µ–¥ –≤—ñ–¥–ø—Ä–∞–≤–∫–æ—é:</b>" ++ nl ++ py "üöó <b>–ê–≤—Ç–æ:</b> <code>" ++ plate
  ++ py "</code>" ++ nl ++ py "üìå <b>–¢–∏–ø:</b> " ++ issue_type
  ++ nl ++ py "üìù <b>–û–ø–∏—Å:</b> " ++ description
  ++ nl ++ nl ++ py "–Ø–∫—â–æ –≤—Å–µ –æ–∫ - –Ω–∞—Ç–∏—Å–Ω—ñ—Ç—å <b>" ++ html_escape TXT.send ++ py "</b>.".

(** [created_at] is [now_local_str()], read from the clock of [w]; the
    caller moves the clock on. *)
Definition build_dispatch_html (update : Update.t) (w : World) : pystr :=
  let d := user_data w in
  let plate := html_escape (get_or_dash d "number") in
  let issue_type := html_escape (get_or_dash d "type") in
  let description := html_escape (get_or_dash d "description") in
  let sender := html_escape (sender_label update) in
  let created_at := html_escape (now w) in
  py "üõ† <b>–ù–æ–≤–∞ –∑–∞—è–≤–∫–∞</b>" ++ nl ++ py "üïí <b>–ß–∞—Å:</b> " ++ created_at
  ++ nl ++ py "üë§ <b>–í—ñ–¥:</b> " ++ sender
  ++ nl ++ py "üöó <b>–ê–≤—Ç–æ:</b> <code>" ++ plate
  ++ py "</code>" ++ nl ++ py "üìå <b>–¢–∏–ø:</b> " ++ issue_type
  ++ nl ++ py "üìù <b>–û–ø–∏—Å:</b> " ++ description.

Definition safe_reply (update : Update.t) (text : pystr)
    (reply_markup : option markup) (parse_mode : option pystr) : M unit :=
  match Update.message update with
  | Some _ => api_call (reply_text text reply_markup parse_mode)
  | None => ret tt
  end.

Definition ask_for_number (update : Update.t) : M unit :=
  safe_reply update Msg.ask_number (Some CANCEL_KB) (Some ParseMode.HTML).

Definition ask_for_type (update : Update.t) : M unit :=
  safe_reply update Msg.ask_type (Some (ReplyKeyboardMarkup PROBLEM_TYPES true true)) None.

Definition ask_for_description (update : Update.t) : M unit :=
  safe_reply update Msg.ask_description (Some ReplyKeyboardRemove) None.

Definition send_request (update : Update.t) : M unit :=
  let target_chat := get_target_chat in
  fun w =>
    let message := build_dispatch_html update w in
    let w := tick w in
    match target_chat with
    | None => py_print message w
    | Some chat =>
        try_except
          (api_call (send_message chat message (Some ParseMode.HTML)))
          is_TimedOut
          (api_call (send_message chat message (Some ParseMode.HTML)))
          w
    end.

Definition handle_number_step (update : Update.t) (text : pystr) : M unit :=
  let plate := normalize_plate text in
  set_item "number" plate ;;
  set_item "step" Step.TYPE ;;
  (if negb (looks_like_plate plate)
   then safe_reply update Msg.plate_unusual (Some CANCEL_KB) None
   else ret tt) ;;
  ask_for_type update.

(** [{row[0] for row in PROBLEM_TYPES}] *)
Definition allowed : gset pystr := list_to_set (omap head PROBLEM_TYPES).

Definition handle_type_step (update : Update.t) (text : pystr) : M unit :=
  if decide (text ∉ allowed)
  then safe_reply update Msg.type_retry (Some (ReplyKeyboardMarkup PROBLEM_TYPES true true)) None
  else
    set_item "type" text ;;
    set_item "step" Step.DESCRIPTION ;;
    ask_for_description update.

Definition handle_description_step (update : Update.t) (text : pystr) : M unit :=
  let cleaned := strip text in
  if len cleaned <? 3
  then safe_reply update Msg.description_short None None
  else
    set_item "description" cleaned ;;
    set_item "step" Step.CONFIRM ;;
    (fun w => safe_reply update (build_preview_html (user_data w))
                (Some CONFIRM_KB) (Some ParseMode.HTML) w).

Definition handle_confirm_step (update : Update.t) (text : pystr) : M unit :=
  if decide (text = TXT.edit_number) then
    set_item "step" Step.NUMBER ;;
    safe_reply update Msg.number_again (Some CANCEL_KB) None
  else if decide (text = TXT.edit_type) then
    set_item "step" Step.TYPE ;;
    ask_for_type update
  else if decide (text = TXT.edit_desc) then
    set_item "step" Step.DESCRIPTION ;;
    ask_for_description update
  else if decide (text ≠ TXT.send) then
    safe_reply update Msg.confirm_retry (Some CONFIRM_KB) None
  else
    try_except
      (send_request update ;;
       safe_reply update Msg.done (Some ReplyKeyboardRemove) None ;;
       modify_user_data (fun _ => ∅))
      is_Exception
      (safe_reply update Msg.send_failed (Some CONFIRM_KB) None).

(** *** Access control *)

Definition is_admin (update : Update.t) : bool :=
  match Update.effective_user update with
  | Some user => bool_decide (User.id user ∈ ADMIN_IDS)
  | None => false
  end.

Definition load_blocked_users (f : blocklist_file) : gset Z :=
  match f with
  | FileMissing => ∅
  | FileUnreadable => ∅
  | FileNotList => ∅
  | FileList items => list_to_set (omap (fun item => item) items)
  end.

(** [sorted(blocked)] *)
Definition sorted (blocked : gset Z) : list Z :=
  merge_sort Z.le (elements blocked).

Definition save_blocked_users (blocked : gset Z) : M unit :=
  fun w => (Ret tt, with_file (FileList (Some <$> sorted blocked)) w).

Definition blocked_users : M (gset Z) :=
  fun w =>
    match bot_blocked w with
    | Some users => (Ret users, w)
    | None =>
        let users := load_blocked_users (file w) in
        (Ret users, with_blocked users w)
    end.

Definition is_blocked (update : Update.t) : M bool :=
  match Update.effective_user update with
  | None => ret false
  | Some user =>
      users <- blocked_users ;;
      ret (bool_decide (User.id user ∈ users))
  end.

Definition reject_if_blocked (update : Update.t) : M bool :=
  if is_admin update then ret false
  else
    b <- is_blocked update ;;
    if negb b then ret false
    else
      safe_reply update Msg.denied None None ;;
      ret true.

Definition parse_user_id_arg (args : list pystr) : option Z :=
  match args with
  | [] => None
  | a :: _ => py_int (strip a)
  end.

(** [blocked] is the very set [bot_data] holds, so [blocked.add] and
    [blocked.remove] change the shared ban list; [with_blocked] writes the
    changed set back to that place. *)
Definition ban_user (update : Update.t) (args : list pystr) : M unit :=
  if negb (is_admin update) then
    safe_reply update Msg.admin_only None None
  else
    match parse_user_id_arg args with
    | None => safe_reply update Msg.ban_usage None None
    | Some user_id =>
        blocked <- blocked_users ;;
        let blocked := blocked ∪ {[user_id]} in
        (fun w => (Ret tt, with_blocked blocked w)) ;;
        save_blocked_users blocked ;;
        safe_reply update (Msg.banned user_id) None None
    end.

Definition unban_user (update : Update.t) (args : list pystr) : M unit :=
  if negb (is_admin update) then
    safe_reply update Msg.admin_only None None
  else
    match parse_user_id_arg args with
    | None => safe_reply update Msg.unban_usage None None
    | Some user_id =>
        blocked <- blocked_users ;;
        if bool_decide (user_id ∈ blocked) then
          let blocked := blocked ∖ {[user_id]} in
          (fun w => (Ret tt, with_blocked blocked w)) ;;
          save_blocked_users blocked ;;
          safe_reply update (Msg.unbanned user_id) None None
        else
          safe_reply update (Msg.not_banned user_id) None None
    end.

(** *** Routing of a text message *)

Definition cancel (update : Update.t) : M unit :=
  b <- reject_if_blocked update ;;
  if b then ret tt
  else
    modify_user_data (fun _ => ∅) ;;
    safe_reply update Msg.cancelled (Some ReplyKeyboardRemove) None.

Definition restart (update : Update.t) : M unit :=
  b <- reject_if_blocked update ;;
  if b then ret tt
  else
    reset_flow ;;
    safe_reply update Msg.restarting (Some CANCEL_KB) None ;;
    ask_for_number update.

Definition handle_message (update : Update.t) : M unit :=
  if negb (Update.chat_is_private update) then ret tt
  else
    match Update.message update ≫= Message.text with
    | None => ret tt
    | Some raw =>
        if negb (truthy raw) then ret tt
        else
          b <- reject_if_blocked update ;;
          if b then ret tt
          else
            let text := strip raw in
            if decide (text = TXT.cancel) then cancel update
            else if decide (text = TXT.restart) then restart update
            else
              fun w =>
                let step := default [] (user_data w !! "step") in
                if negb (truthy step) then
                  safe_reply update Msg.start_hint (Some ReplyKeyboardRemove) None w
                else if decide (step = Step.NUMBER) then handle_number_step update text w
                else if decide (step = Step.TYPE) then handle_type_step update text w
                else if decide (step = Step.DESCRIPTION) then handle_description_step update text w
                else if decide (step = Step.CONFIRM) then handle_confirm_step update text w
                else restart update w
    end.

End Bot.

(** [int(str)] on ASCII input: surrounding whitespace, an optional sign and
    decimal digits. It instantiates the [py_int] parameter when the model
    is run on concrete inputs. *)
Fixpoint digits_value (acc : Z) (s : pystr) : option Z :=
  match s with
  | [] => Some acc
  | c :: s' =>
      if (48 <=? c) && (c <=? 57) then digits_value (10 * acc + (c - 48)) s'
      else None
  end.

Definition int_ascii (s : pystr) : option Z :=
  match strip s with
  | [] => None
  | 45 :: ds => if truthy ds then Z.opp <$> digits_value 0 ds else None
  | 43 :: ds => if truthy ds then digits_value 0 ds else None
  | ds => digits_value 0 ds
  end.

(** ** Sample inputs

    A user in a private chat, an operator, and sessions at each step; the
    properties below are run on them. *)
Module Sample.

Definition user (id : Z) (text : pystr) : Update.t :=
  {| Update.effective_user :=
       Some {| User.id := id; User.username := None;
               User.first_name := Some (py "Ann"); User.last_name := None |};
     Update.chat_is_private := true;
     Update.chat_id := id;
     Update.message := Some {| Message.text := Some text |} |}.

Definition alice : Update.t := user 12345 (py "hello").
Definition operator : Update.t := user 1 (py "/ban 555").
Definition ADMIN_IDS : gset Z := {[1]}.

Definition session (d : gmap string pystr) (n : list (option exn)) : World :=
  {| user_data := d; bot_blocked := Some ∅; file := FileMissing;
     trace := []; net := n; now := py "2024-05-01 10:00 UTC";
     later := [py "2024-05-01 10:01 UTC"] |}.

Definition at_number : gmap string pystr :=
  {[ "step"%string := Step.NUMBER ]}.
Definition at_type : gmap string pystr :=
  <["step"%string := Step.TYPE]> (<["number"%string := py "AB1234CD"]> ∅).
Definition at_description : gmap string pystr :=
  <["step"%string := Step.DESCRIPTION]>
    (<["type"%string := py "–ö–æ–ª–µ—Å–∞ / —Ö–æ–¥–æ–≤–∞"]> at_type).
Definition at_confirm : gmap string pystr :=
  <["step"%string := Step.CONFIRM]>
    (<["description"%string := py "flat tyre"]> at_description).

Definition label : pystr := py "–ö–æ–ª–µ—Å–∞ / —Ö–æ–¥–æ–≤–∞".

(** A ban list with one entry, in memory and on disk. *)
Definition banned555 : World :=
  {| user_data := ∅; bot_blocked := Some {[555]}; file := FileList [Some 555];
     trace := []; net := []; now := py "2024-05-01 10:00 UTC"; later := [] |}.

(** The state after start-up from a file that lists 7 before 5. *)
Definition banned_unsorted : World :=
  {| user_data := ∅;
     bot_blocked := Some (load_blocked_users (FileList [Some 7; Some 5]));
     file := FileList [Some 7; Some 5];
     trace := []; net := []; now := py "2024-05-01 10:00 UTC"; later := [] |}.

Definition nobody_banned : World :=
  {| user_data := ∅; bot_blocked := Some ∅; file := FileList [];
     trace := []; net := []; now := py "2024-05-01 10:00 UTC"; later := [] |}.

End Sample.

(** ** Commands and configuration outside the conversation *)

(** [s.split(sep)] for a one-character [sep]: the pieces between the
    separators, so one piece more than there are separators. *)
Fixpoint split_char (sep : Z) (s : pystr) : list pystr :=
  match s with
  | [] => [[]]
  | c :: s' =>
      if c =? sep then [] :: split_char sep s'
      else
        match split_char sep s' with
        | [] => [[c]]
        | p :: ps => (c :: p) :: ps
        end
  end.

Module CmdMsg.
Definition welcome : pystr :=
  py "–í—ñ—Ç–∞—é! –Ø –¥–æ–ø–æ–º–æ–∂—É —Å—Ç–≤–æ—Ä–∏—Ç–∏ –∑–∞—è–≤–∫—É –¥–ª—è –∫–æ–º–∞–Ω–¥–∏ —Å–µ—Ä–≤—ñ—Å—É.".
Definition banlist_empty : pystr :=
  py "–ë–ª–æ–∫-–ª–∏—Å—Ç –ø–æ—Ä–æ–∂–Ω—ñ–π.".
Definition banlist (count : Z) (lines suffix : pystr) : pystr :=
  py "–ó–∞–±–ª–æ–∫–æ–≤–∞–Ω—ñ ID (" ++ str_of_int count ++ py "):" ++ nl ++ lines ++ suffix.
Definition more : pystr :=
  nl ++ py "...".
Definition help : pystr :=
  py "–ö–æ–º–∞–Ω–¥–∏:" ++ nl ++ py "/start - –ø–æ—á–∞—Ç–∏ —Å—Ç–≤–æ—Ä–µ–Ω–Ω—è –∑–∞—è–≤–∫–∏" ++ nl ++ py "/cancel - —Å–∫–∞—Å—É–≤–∞—Ç–∏ –ø–æ—Ç–æ—á–Ω—É –∑–∞—è–≤–∫—É" ++ nl ++ py "/chatid - –ø–æ–∫–∞–∑–∞—Ç–∏ chat id" ++ nl ++ py "/help - –ø–æ–∫–∞–∑–∞—Ç–∏ –ø—ñ–¥–∫–∞–∑–∫—É".
Definition help_admin : pystr :=
  nl ++ nl ++ py "–ê–¥–º—ñ–Ω-–∫–æ–º–∞–Ω–¥–∏:" ++ nl ++ py "/ban <user_id> - –∑–∞–±–ª–æ–∫—É–≤–∞—Ç–∏ –∫–æ—Ä–∏—Å—Ç—É–≤–∞—á–∞" ++ nl ++ py "/unban <user_id> - —Ä–æ–∑–±–ª–æ–∫—É–≤–∞—Ç–∏ –∫–æ—Ä–∏—Å—Ç—É–≤–∞—á–∞" ++ nl ++ py "/banlist - —Å–ø–∏—Å–æ–∫ –∑–∞–±–ª–æ–∫–æ–≤–∞–Ω–∏—Ö".
Definition chat_id (id : Z) : pystr :=
  py "Chat ID: <code>" ++ str_of_int id ++ py "</code>".
End CmdMsg.

Section Commands.

Variable py_int : pystr -> option Z.
Variable ADMIN_IDS : gset Z.

(** One round of the loop of [parse_admin_ids]. *)
Definition add_admin_chunk (result : gset Z) (chunk : pystr) : gset Z :=
  let chunk := strip chunk in
  if negb (truthy chunk) then result
  else
    match py_int chunk with
    | Some n => result ∪ {[n]}
    | None => result
    end.

Definition parse_admin_ids (raw : pystr) : gset Z :=
  if negb (truthy raw) then ∅
  else fold_left add_admin_chunk (split_char 44 raw) ∅.

Definition start (update : Update.t) : M unit :=
  b <- reject_if_blocked ADMIN_IDS update ;;
  if b then ret tt
  else
    reset_flow ;;
    safe_reply update CmdMsg.welcome (Some CANCEL_KB) None ;;
    ask_for_number update.

Definition help_cmd (update : Update.t) : M unit :=
  b <- reject_if_blocked ADMIN_IDS update ;;
  if b then ret tt
  else
    let extra := if is_admin ADMIN_IDS update then CmdMsg.help_admin else [] in
    safe_reply update (CmdMsg.help ++ extra) None None.

(** An update always comes with its chat here, so [if chat:] holds. *)
Definition chatid (update : Update.t) : M unit :=
  b <- reject_if_blocked ADMIN_IDS update ;;
  if b then ret tt
  else
    safe_reply update (CmdMsg.chat_id (Update.chat_id update)) None
      (Some ParseMode.HTML).

Definition banlist (update : Update.t) : M unit :=
  if negb (is_admin ADMIN_IDS update) then
    safe_reply update Msg.admin_only None None
  else
    users <- blocked_users ;;
    let blocked := sorted users in
    match blocked with
    | [] => safe_reply update CmdMsg.banlist_empty None None
    | _ =>
        let lines := join nl (map str_of_int (take 200 blocked)) in
        let suffix := if 200 <? Z.of_nat (length blocked) then CmdMsg.more else [] in
        safe_reply update (CmdMsg.banlist (Z.of_nat (length blocked)) lines suffix) None None
    end.

End Commands.

(** ** The handlers registered in [main]

    An update reaches the handler of its command, or [handle_message] when
    it is a text that is no command. *)
Inductive incoming :=
| command_start (update : Update.t)
| command_help (update : Update.t)
| command_cancel (update : Update.t)
| command_chatid (update : Update.t)
| command_ban (update : Update.t) (args : list pystr)
| command_unban (update : Update.t) (args : list pystr)
| command_banlist (update : Update.t)
| text_message (update : Update.t).

Section Application.

Variable upper_char : Z -> pystr.
Variable py_int : pystr -> option Z.
Variable TARGET_CHAT_RAW : pystr.
Variable ADMIN_IDS : gset Z.

Definition handle_update (u : incoming) : M unit :=
  match u with
  | command_start update => start ADMIN_IDS update
  | command_help update => help_cmd ADMIN_IDS update
  | command_cancel update => cancel ADMIN_IDS update
  | command_chatid update => chatid ADMIN_IDS update
  | command_ban update args => ban_user py_int ADMIN_IDS update args
  | command_unban update args => unban_user py_int ADMIN_IDS update args
  | command_banlist update => banlist ADMIN_IDS update
  | text_message update =>
      handle_message upper_char py_int TARGET_CHAT_RAW ADMIN_IDS update
  end.

(** The updates of one user, handled one after the other; an exception of a
    handler ends that handler only. *)
Fixpoint run_updates (us : list incoming) (w : World) : World :=
  match us with
  | [] => w
  | u :: us' => run_updates us' (snd (handle_update u w))
  end.

End Application.

(** ** The state machine of the session *)

(** The ban list in force: the set [blocked_users] returns. *)
Definition effective_blocked (w : World) : gset Z :=
  match bot_blocked w with
  | Some users => users
  | None => load_blocked_users (file w)
  end.

Definition step_of (d : gmap string pystr) : option pystr := d !! "step"%string.

Definition is_set (d : gmap string pystr) (key : string) : Prop := is_Some (d !! key).

(** What one text message may do to the session. *)
Inductive session_step (d : gmap string pystr) : gmap string pystr -> Prop :=
| session_same : session_step d d
| session_cleared : session_step d ∅
| session_reset : session_step d (<["step"%string := Step.NUMBER]> ∅)
| session_number (n : pystr) :
    step_of d = Some Step.NUMBER ->
    Forall (fun c => c <> 32 /\ c <> 45) n ->
    session_step d (<["step"%string := Step.TYPE]> (<["number"%string := n]> d))
| session_type (t : pystr) :
    step_of d = Some Step.TYPE ->
    t ∈ concat PROBLEM_TYPES ->
    session_step d (<["step"%string := Step.DESCRIPTION]> (<["type"%string := t]> d))
| session_description (x : pystr) :
    step_of d = Some Step.DESCRIPTION ->
    3 <= len x -> strip x = x ->
    session_step d (<["step"%string := Step.CONFIRM]> (<["description"%string := x]> d))
| session_edit (s : pystr) :
    step_of d = Some Step.CONFIRM ->
    s ∈ [Step.NUMBER; Step.TYPE; Step.DESCRIPTION] ->
    session_step d (<["step"%string := s]> d).

(** What holds of a session between two messages: the step is one of the
    four, the fields are as their handlers store them, and the fields of
    the steps passed are there. *)
Record session_ok (d : gmap string pystr) : Prop := {
  ok_step : forall s, step_of d = Some s ->
    s ∈ [Step.NUMBER; Step.TYPE; Step.DESCRIPTION; Step.CONFIRM];
  ok_number : forall n, d !! "number"%string = Some n ->
    Forall (fun c => c <> 32 /\ c <> 45) n;
  ok_type : forall t, d !! "type"%string = Some t -> t ∈ concat PROBLEM_TYPES;
  ok_description : forall x, d !! "description"%string = Some x ->
    3 <= len x /\ strip x = x;
  ok_at_type : step_of d = Some Step.TYPE -> is_set d "number";
  ok_at_description : step_of d = Some Step.DESCRIPTION ->
    is_set d "number" /\ is_set d "type";
  ok_at_confirm : step_of d = Some Step.CONFIRM ->
    is_set d "number" /\ is_set d "type" /\ is_set d "description"
}.

(** The gate of [reject_if_blocked]: the user is no operator and is on the
    ban list in force. *)
Definition turned_away (ADMIN_IDS : gset Z) (update : Update.t) (w : World) : bool :=
  negb (is_admin ADMIN_IDS update) &&
  match Update.effective_user update with
  | Some user => bool_decide (User.id user ∈ effective_blocked w)
  | None => false
  end.

(** [w1] is [w], possibly with the ban list read into [bot_data]. *)
Definition same_but_loaded (w w1 : World) : Prop :=
  user_data w1 = user_data w /\ file w1 = file w /\ trace w1 = trace w /\
  net w1 = net w /\ now w1 = now w /\
  effective_blocked w1 = effective_blocked w.

(** A conversation of one user: start, plate, category, description. *)
Module Demo.
Definition flow : list incoming :=
  [ command_start (Sample.user 12345 (py "/start"));
    text_message (Sample.user 12345 (py " ab 12-34 cd "));
    text_message (Sample.user 12345 Sample.label);
    text_message (Sample.user 12345 (py "  flat tyre ")) ].

Definition idle : World := Sample.session ∅ [].
End Demo.

(** A computation that leaves the ban list in force and its file alone. *)
Definition quiet {A} (m : M A) : Prop :=
  forall w,
    file (snd (m w)) = file w /\
    effective_blocked (snd (m w)) = effective_blocked w.

(** The two commands that are meant to change the ban list. *)
Definition is_ban_command (u : incoming) : bool :=
  match u with
  | command_ban _ _ => true
  | command_unban _ _ => true
  | _ => false
  end.

(** * Properties *)

(** ** Strings *)

Section StringFacts.

Implicit Types (s t : pystr) (c d : Z).

Lemma lstrip_head_kept s : head_kept (lstrip s).
Proof.
  induction s as [|c s IH]; simpl; [exact I|].
  destruct (is_space c) eqn:E; [exact IH | exact E].
Qed.

Lemma lstrip_fixed s : head_kept s -> lstrip s = s.
Proof. destruct s as [|c s]; simpl; [reflexivity|]. intros ->. reflexivity. Qed.

Lemma lstrip_snoc s c :
  is_space c = false -> exists t, lstrip (s ++ [c]) = t ++ [c].
Proof.
  intros Hc. induction s as [|d s IH]; simpl.
  - rewrite Hc. exists []. reflexivity.
  - destruct (is_space d); [exact IH|]. exists (d :: s). reflexivity.
Qed.

Lemma rstrip_head_kept s : head_kept s -> head_kept (rstrip s).
Proof.
  unfold rstrip. destruct s as [|c s]; simpl; [intros _; exact I|].
  intros Hc. destruct (lstrip_snoc (rev s) c Hc) as [t ->].
  rewrite rev_app_distr. simpl. exact Hc.
Qed.

Lemma rstrip_idem s : rstrip (rstrip s) = rstrip s.
Proof.
  unfold rstrip. rewrite rev_involutive.
  rewrite (lstrip_fixed (lstrip (rev s))); [reflexivity|].
  apply lstrip_head_kept.
Qed.

Lemma strip_idem s : strip (strip s) = strip s.
Proof.
  unfold strip.
  rewrite (lstrip_fixed (rstrip (lstrip s))).
  - apply rstrip_idem.
  - apply rstrip_head_kept, lstrip_head_kept.
Qed.

Lemma Forall_lstrip (P : Z -> Prop) s : Forall P s -> Forall P (lstrip s).
Proof.
  induction 1 as [|c s Hc Hs IH]; simpl; [constructor|].
  destruct (is_space c); [exact IH | constructor; assumption].
Qed.

Lemma Forall_strip (P : Z -> Prop) s : Forall P s -> Forall P (strip s).
Proof.
  intros H. unfold strip, rstrip.
  apply List.Forall_rev, Forall_lstrip, List.Forall_rev, Forall_lstrip, H.
Qed.

Lemma lstrip_no_space s :
  Forall (fun c => is_space c = false) s -> lstrip s = s.
Proof. intros H. apply lstrip_fixed. destruct H; simpl; auto. Qed.

Lemma strip_no_space s :
  Forall (fun c => is_space c = false) s -> strip s = s.
Proof.
  intros H. unfold strip, rstrip.
  rewrite (lstrip_no_space s H).
  rewrite (lstrip_no_space (rev s)); [apply rev_involutive|].
  apply List.Forall_rev, H.
Qed.

Lemma Forall_remove_char (P : Z -> Prop) c s :
  Forall P s -> Forall P (remove_char c s).
Proof.
  induction 1 as [|d s Hd Hs IH]; simpl; [constructor|].
  destruct (d =? c); [exact IH | constructor; assumption].
Qed.

Lemma remove_char_gone c s : Forall (fun d => d <> c) (remove_char c s).
Proof.
  induction s as [|d s IH]; simpl; [constructor|].
  destruct (Z.eqb_spec d c); [exact IH | constructor; assumption].
Qed.

Lemma remove_char_fixed c s :
  Forall (fun d => d <> c) s -> remove_char c s = s.
Proof.
  induction 1 as [|d s Hd Hs IH]; simpl; [reflexivity|].
  destruct (Z.eqb_spec d c); [contradiction | f_equal; exact IH].
Qed.

Lemma Forall_upper (upper_char : Z -> pystr) (P : Z -> Prop) s :
  Forall (fun c => Forall P (upper_char c)) s -> Forall P (upper upper_char s).
Proof.
  unfold upper. induction 1 as [|c s Hc Hs IH]; simpl; [constructor|].
  apply Forall_app. split; assumption.
Qed.

Lemma upper_fixed (upper_char : Z -> pystr) s :
  Forall (fun c => upper_char c = [c]) s -> upper upper_char s = s.
Proof.
  unfold upper. induction 1 as [|c s Hc Hs IH]; simpl; [reflexivity|].
  rewrite Hc, IH. reflexivity.
Qed.

End StringFacts.

(** ** The plate normalizer *)

Section NormalizeFacts.

Variable upper_char : Z -> pystr.

(** Two facts about the case table of the runtime: an upper-case mapping
    is made of characters that are their own upper case, and white space
    only comes out where it went in. *)
Hypothesis upper_char_idem :
  forall c d, In d (upper_char c) -> upper_char d = [d].
Hypothesis upper_char_space :
  forall c d, In d (upper_char c) -> is_space d = true -> d = c.

Lemma normalize_plate_shape x :
  Forall (fun d => upper_char d = [d] /\ d <> 32 /\ d <> 45)
    (normalize_plate upper_char x).
Proof.
  unfold normalize_plate.
  apply Forall_and. split; [|apply Forall_and; split].
  - do 2 apply Forall_remove_char. apply Forall_upper.
    apply List.Forall_forall. intros c _. apply List.Forall_forall.
    intros d Hd. exact (upper_char_idem c d Hd).
  - apply Forall_remove_char, remove_char_gone.
  - apply remove_char_gone.
Qed.

(** A second application only strips. *)
Lemma normalize_plate_twice x :
  normalize_plate upper_char (normalize_plate upper_char x)
  = strip (normalize_plate upper_char x).
Proof.
  pose proof (Forall_strip _ _ (normalize_plate_shape x)) as H.
  unfold normalize_plate at 1.
  rewrite upper_fixed by (eapply List.Forall_impl; [|exact H]; simpl; tauto).
  rewrite (remove_char_fixed 32) by (eapply List.Forall_impl; [|exact H]; simpl; tauto).
  apply remove_char_fixed. eapply List.Forall_impl; [|exact H]. simpl. tauto.
Qed.

Lemma normalize_plate_no_space x :
  only_plain_spaces x = true ->
  Forall (fun c => is_space c = false) (normalize_plate upper_char x).
Proof.
  intros Hx.
  assert (Hq : Forall (fun c => is_space c = true -> c = 32) x).
  { apply List.Forall_forall. intros c Hc.
    unfold only_plain_spaces in Hx. rewrite forallb_forall in Hx.
    specialize (Hx c Hc). intros E. rewrite E in Hx. simpl in Hx. lia. }
  assert (Hu : Forall (fun c => is_space c = true -> c = 32)
                 (upper upper_char (strip x))).
  { apply Forall_upper. eapply List.Forall_impl; [|apply Forall_strip, Hq].
    intros c Hc. apply List.Forall_forall. intros d Hd E.
    pose proof (upper_char_space c d Hd E) as ->. apply Hc, E. }
  unfold normalize_plate. apply Forall_remove_char.
  pose proof (remove_char_gone 32 (upper upper_char (strip x))) as Hg.
  pose proof (Forall_remove_char _ 32 _ Hu) as Hk.
  rewrite List.Forall_forall in Hg, Hk. apply List.Forall_forall.
  intros c Hc. destruct (is_space c) eqn:E; [|reflexivity].
  exfalso. apply (Hg c Hc). apply (Hk c Hc). exact E.
Qed.

(** C3 (amended). [normalize_plate] is idempotent from its second
    application on for every string, and from the first on every string
    whose only white space is the space character U+0020. *)
Theorem normalize_plate_idempotent :
  (forall x,
     normalize_plate upper_char
       (normalize_plate upper_char (normalize_plate upper_char x))
     = normalize_plate upper_char (normalize_plate upper_char x)) /\
  (forall x,
     only_plain_spaces x = true ->
     normalize_plate upper_char (normalize_plate upper_char x)
     = normalize_plate upper_char x).
Proof.
  split.
  - intros x. rewrite (normalize_plate_twice (normalize_plate upper_char x)).
    rewrite (normalize_plate_twice x). apply strip_idem.
  - intros x Hx. rewrite normalize_plate_twice.
    apply strip_no_space, normalize_plate_no_space, Hx.
Qed.

End NormalizeFacts.

Lemma upper_table_idem c d : In d (upper_table c) -> upper_table d = [d].
Proof.
  unfold upper_table.
  repeat match goal with
         | |- context [if ?b then _ else _] => destruct b eqn:?
         end; simpl; intros H;
    repeat match goal with
           | H : _ \/ _ |- _ => destruct H
           | H : False |- _ => destruct H
           end; subst; try reflexivity; exfalso; lia.
Qed.

Lemma upper_table_space c d :
  In d (upper_table c) -> is_space d = true -> d = c.
Proof.
  unfold upper_table, is_space.
  repeat match goal with
         | |- context [if ?b then _ else _] => destruct b eqn:?
         end; simpl; intros H;
    repeat match goal with
           | H : _ \/ _ |- _ => destruct H
           | H : False |- _ => destruct H
           end; subst; try reflexivity; intros; exfalso; lia.
Qed.

Lemma normalize_plate_idempotent_witness :
  only_plain_spaces (py " a 1-2 3 a ") = true /\
  normalize_plate upper_table (normalize_plate upper_table (py " a 1-2 3 a "))
  = normalize_plate upper_table (py " a 1-2 3 a ").
Proof.
  split; [reflexivity|].
  apply (proj2 (normalize_plate_idempotent upper_table upper_table_idem upper_table_space)).
  reflexivity.
Defined.

(** C3, as stated, fails: a hyphen followed by a line break and a letter. The
    first application removes the hyphen and leaves the line break in front,
    which the second application strips. *)
Lemma normalize_plate_not_idempotent :
  normalize_plate upper_table (normalize_plate upper_table [45; 10; 65])
  <> normalize_plate upper_table [45; 10; 65].
Proof. vm_compute. discriminate. Qed.

(** ** The step handlers *)

Lemma omap_head_PROBLEM_TYPES : omap head PROBLEM_TYPES = concat PROBLEM_TYPES.
Proof. reflexivity. Qed.

Lemma allowed_labels (text : pystr) : text ∈ allowed <-> text ∈ concat PROBLEM_TYPES.
Proof.
  unfold allowed. rewrite omap_head_PROBLEM_TYPES. apply elem_of_list_to_set.
Qed.

(** The category labels are five, all different. *)
Lemma PROBLEM_TYPES_five :
  length (concat PROBLEM_TYPES) = 5%nat /\ NoDup (concat PROBLEM_TYPES).
Proof.
  split; [reflexivity|].
  apply (bool_decide_unpack (NoDup (concat PROBLEM_TYPES))). vm_compute. exact I.
Qed.

Lemma type_retry_wording : Msg.type_retry <> Msg.ask_type.
Proof. vm_compute. discriminate. Qed.

Lemma step_TYPE_DESCRIPTION : Step.TYPE <> Step.DESCRIPTION.
Proof. vm_compute. discriminate. Qed.

(** Runs the monadic plumbing of a handler. *)
Ltac run :=
  unfold ask_for_type, ask_for_description, ask_for_number, safe_reply,
    set_item, modify_user_data, api_call, py_print, bind, ret;
  simpl.

Lemma safe_reply_user_data update text reply_markup parse_mode w :
  user_data (snd (safe_reply update text reply_markup parse_mode w)) = user_data w.
Proof. unfold safe_reply. destruct (Update.message update); reflexivity. Qed.

(** C1 (amended). At the TYPE step the text is stored as the category and
    the step becomes DESCRIPTION exactly when the text is one of the five
    labels. For any other text the session is left as it was (so the
    category stays unset and the step stays TYPE) and one reply is sent: it
    carries the keyboard of the category prompt, with a wording of its
    own. *)
Theorem handle_type_step_spec (update : Update.t) (m : Message.t)
    (text : pystr) (w : World) :
  Update.message update = Some m ->
  user_data w !! "step"%string = Some Step.TYPE ->
  let w' := snd (handle_type_step update text w) in
  let keyboard := Some (ReplyKeyboardMarkup PROBLEM_TYPES true true) in
  (user_data w' !! "step"%string = Some Step.DESCRIPTION
   <-> text ∈ concat PROBLEM_TYPES) /\
  (text ∈ concat PROBLEM_TYPES ->
   user_data w'
   = <["step"%string := Step.DESCRIPTION]> (<["type"%string := text]> (user_data w))) /\
  (text ∉ concat PROBLEM_TYPES ->
   user_data w' = user_data w /\
   trace w' = trace w ++ [reply_text Msg.type_retry keyboard None (next_outcome w)]) /\
  trace (snd (ask_for_type update w))
  = trace w ++ [reply_text Msg.ask_type keyboard None (next_outcome w)] /\
  Msg.type_retry <> Msg.ask_type.
Proof.
  intros Hm Hstep w' keyboard. subst w'.
  unfold handle_type_step.
  destruct (decide (text ∉ allowed)) as [Hno|Hyes]; run; rewrite Hm; simpl.
  - rewrite allowed_labels in Hno.
    repeat split; try tauto.
    + intros H. rewrite Hstep in H.
      destruct step_TYPE_DESCRIPTION. congruence.
    + apply type_retry_wording.
  - apply dec_stable in Hyes. rewrite allowed_labels in Hyes.
    repeat split; try tauto.
    + intros _. apply lookup_insert_eq.
    + apply type_retry_wording.
Qed.

Lemma handle_type_step_witness :
  user_data (snd (handle_type_step Sample.alice Sample.label
                    (Sample.session Sample.at_type [])))
  !! "step"%string = Some Step.DESCRIPTION.
Proof.
  apply (proj1 (handle_type_step_spec Sample.alice _ Sample.label
                  (Sample.session Sample.at_type []) eq_refl eq_refl)).
  apply (bool_decide_unpack (Sample.label ∈ concat PROBLEM_TYPES)).
  vm_compute. exact I.
Defined.

(** C1, as stated, fails: the reply to a text that is no label is not the
    category prompt that [ask_for_type] sends. *)
Lemma handle_type_step_reprompt_differs :
  (py "abc" ∉ concat PROBLEM_TYPES) /\
  trace (snd (handle_type_step Sample.alice (py "abc")
                (Sample.session Sample.at_type [])))
  <> trace (snd (ask_for_type Sample.alice (Sample.session Sample.at_type []))).
Proof.
  split.
  - apply (bool_decide_unpack (py "abc" ∉ concat PROBLEM_TYPES)).
    vm_compute. exact I.
  - vm_compute. discriminate.
Qed.

(** C2. At the DESCRIPTION step a text whose trimmed length is below 3
    leaves the session as it was: the step does not advance and a
    description that was unset stays unset. A text with trimmed length at
    least 3 is stored, trimmed, as the description and the step becomes
    CONFIRM. *)
Theorem handle_description_step_spec (update : Update.t) (text : pystr) (w : World) :
  let w' := snd (handle_description_step update text w) in
  (len (strip text) < 3 -> user_data w' = user_data w) /\
  (3 <= len (strip text) ->
   user_data w'
   = <["step"%string := Step.CONFIRM]>
       (<["description"%string := strip text]> (user_data w)) /\
   user_data w' !! "step"%string = Some Step.CONFIRM /\
   user_data w' !! "description"%string = Some (strip text)).
Proof.
  intros w'. subst w'. unfold handle_description_step.
  destruct (Z.ltb_spec (len (strip text)) 3) as [Hlt|Hge].
  - split; [|lia]. intros _. apply safe_reply_user_data.
  - split; [lia|]. intros _.
    unfold bind, set_item, modify_user_data. simpl.
    rewrite safe_reply_user_data. simpl.
    split; [reflexivity|]. split.
    + apply lookup_insert_eq.
    + rewrite lookup_insert_ne; [apply lookup_insert_eq | discriminate].
Qed.

Lemma handle_description_step_witness :
  user_data (snd (handle_description_step Sample.alice (py " ok ")
                    (Sample.session Sample.at_description [])))
  = Sample.at_description /\
  user_data (snd (handle_description_step Sample.alice (py " flat tyre ")
                    (Sample.session Sample.at_description [])))
  !! "description"%string = Some (py "flat tyre").
Proof.
  split.
  - apply (proj1 (handle_description_step_spec Sample.alice (py " ok ")
                    (Sample.session Sample.at_description []))).
    reflexivity.
  - apply (proj2 (handle_description_step_spec Sample.alice (py " flat tyre ")
                    (Sample.session Sample.at_description []))).
    vm_compute. discriminate.
Defined.

(** Closes a goal about the session dictionary after the assignments of a
    handler. *)
Ltac session :=
  first
    [ apply lookup_insert_eq
    | rewrite lookup_insert_ne; [apply lookup_insert_eq | discriminate]
    | reflexivity ].

(** C5 (amended). At the NUMBER step the normalized text is stored as the
    number and the step becomes TYPE, whatever the text, and the category
    prompt follows. The warning is sent first exactly when
    [looks_like_plate] rejects the stored number, that is when the stored
    number, normalized once more, fails the plate pattern. With the case
    table of the runtime that is when the stored number without its outer
    white space fails the pattern, and for a text whose only white space is
    the space character it is when the stored number itself fails it. *)
Theorem handle_number_step_spec (upper_char : Z -> pystr) (update : Update.t)
    (m : Message.t) (text : pystr) (w : World) :
  Update.message update = Some m ->
  let plate := normalize_plate upper_char text in
  let w' := snd (handle_number_step upper_char update text w) in
  let warning := reply_text Msg.plate_unusual (Some CANCEL_KB) None in
  let prompt :=
    reply_text Msg.ask_type (Some (ReplyKeyboardMarkup PROBLEM_TYPES true true)) None in
  user_data w'
  = <["step"%string := Step.TYPE]> (<["number"%string := plate]> (user_data w)) /\
  user_data w' !! "step"%string = Some Step.TYPE /\
  user_data w' !! "number"%string = Some plate /\
  trace w'
  = trace w ++
    (if PLATE_RE_fullmatch (normalize_plate upper_char plate)
     then [prompt (outcome 0 w)]
     else warning (outcome 0 w) ::
          match outcome 0 w with
          | None => [prompt (outcome 1 w)]
          | Some _ => []
          end) /\
  ((forall c d, In d (upper_char c) -> upper_char d = [d]) ->
   normalize_plate upper_char plate = strip plate /\
   ((forall c d, In d (upper_char c) -> is_space d = true -> d = c) ->
    only_plain_spaces text = true ->
    normalize_plate upper_char plate = plate)).
Proof.
  intros Hm plate w' warning prompt. subst w'.
  split; [|split; [|split; [|split]]].
  5: { intros Hidem.
       pose proof (normalize_plate_twice upper_char Hidem text) as E.
       split; [exact E|]. intros Hspace Hx. fold plate in E. rewrite E.
       apply strip_no_space.
       exact (normalize_plate_no_space upper_char Hspace text Hx). }
  all: unfold handle_number_step; fold plate;
    change (looks_like_plate upper_char plate)
      with (PLATE_RE_fullmatch (normalize_plate upper_char plate));
    generalize (PLATE_RE_fullmatch (normalize_plate upper_char plate)); intros ok;
    run; rewrite Hm; unfold next_outcome, outcome; simpl;
    destruct ok; simpl.
  all: try session.
  all: destruct (net w) as [|[e|] n]; simpl; try session;
    rewrite <- app_assoc; reflexivity.
Qed.

Lemma handle_number_step_witness :
  user_data (snd (handle_number_step upper_table Sample.alice (py " ab 12-34 cd ")
                    (Sample.session Sample.at_number [])))
  !! "number"%string = Some (py "AB1234CD") /\
  PLATE_RE_fullmatch (normalize_plate upper_table (normalize_plate upper_table (py "a-1")))
  = false /\
  trace (snd (handle_number_step upper_table Sample.alice (py "a-1")
                (Sample.session Sample.at_number [])))
  = [ reply_text Msg.plate_unusual (Some CANCEL_KB) None None;
      reply_text Msg.ask_type (Some (ReplyKeyboardMarkup PROBLEM_TYPES true true))
        None None ].
Proof.
  split; [|split].
  - apply (handle_number_step_spec upper_table Sample.alice _ (py " ab 12-34 cd ")
             (Sample.session Sample.at_number []) eq_refl).
  - vm_compute. reflexivity.
  - pose proof (handle_number_step_spec upper_table Sample.alice _ (py "a-1")
                  (Sample.session Sample.at_number []) eq_refl) as H.
    destruct H as (_ & _ & _ & H & _).
    vm_compute in H. vm_compute. exact H.
Defined.

(** C5, as stated, fails: for a hyphen, a line break and five letters the
    stored number begins with the line break and fails the plate pattern,
    yet no warning is sent, and the category prompt is all the user gets. *)
Lemma handle_number_step_no_warning :
  normalize_plate upper_table [45; 10; 65; 66; 67; 68; 69] = [10; 65; 66; 67; 68; 69] /\
  user_data (snd (handle_number_step upper_table Sample.alice [45; 10; 65; 66; 67; 68; 69]
                    (Sample.session Sample.at_number [])))
  !! "number"%string = Some [10; 65; 66; 67; 68; 69] /\
  PLATE_RE_fullmatch [10; 65; 66; 67; 68; 69] = false /\
  trace (snd (handle_number_step upper_table Sample.alice [45; 10; 65; 66; 67; 68; 69]
                (Sample.session Sample.at_number [])))
  = [ reply_text Msg.ask_type (Some (ReplyKeyboardMarkup PROBLEM_TYPES true true))
        None None ].
Proof. repeat split; vm_compute; reflexivity. Qed.

(** ** The dispatcher *)

Lemma send_request_run (py_int : pystr -> option Z) (TARGET_CHAT_RAW : pystr)
    (update : Update.t) (w : World) :
  send_request py_int TARGET_CHAT_RAW update w
  = let message := build_dispatch_html update w in
    match get_target_chat py_int TARGET_CHAT_RAW with
    | None => (Ret tt, with_event (print message) (tick w))
    | Some chat =>
        let attempt := send_message chat message (Some ParseMode.HTML) in
        let w1 :=
          with_net (tail (net w)) (with_event (attempt (outcome 0 w)) (tick w)) in
        match outcome 0 w with
        | Some TimedOut =>
            (result_of (outcome 0 w1),
             with_net (tail (net w1)) (with_event (attempt (outcome 0 w1)) w1))
        | o => (result_of o, w1)
        end
    end.
Proof.
  unfold send_request. destruct (get_target_chat py_int TARGET_CHAT_RAW); [|reflexivity].
  unfold try_except, api_call, next_outcome.
  change (outcome 0 (tick w)) with (outcome 0 w).
  change (net (tick w)) with (net w). simpl.
  destruct (outcome 0 w) as [[|]|]; reflexivity.
Qed.

Lemma send_request_user_data py_int TARGET_CHAT_RAW update w :
  user_data (snd (send_request py_int TARGET_CHAT_RAW update w)) = user_data w.
Proof.
  rewrite send_request_run. simpl.
  destruct (get_target_chat py_int TARGET_CHAT_RAW); [|reflexivity].
  destruct (outcome 0 w) as [[|]|]; reflexivity.
Qed.

(** The dispatch reads the time once. *)
Lemma send_request_clock py_int TARGET_CHAT_RAW update w :
  now (snd (send_request py_int TARGET_CHAT_RAW update w)) = now (tick w) /\
  later (snd (send_request py_int TARGET_CHAT_RAW update w)) = later (tick w).
Proof.
  rewrite send_request_run. simpl.
  destruct (get_target_chat py_int TARGET_CHAT_RAW); [|split; reflexivity].
  destruct (outcome 0 w) as [[|]|]; split; reflexivity.
Qed.

(** What is rendered depends on the world through the session and the time
    only. *)
Lemma build_dispatch_html_session update w w' :
  user_data w' = user_data w ->
  build_dispatch_html update w' = build_dispatch_html update (with_now (now w') w).
Proof. intros H. unfold build_dispatch_html. simpl. rewrite H. reflexivity. Qed.

(** Whatever the network does, the first thing [send_request] does is to
    hand the rendered request over. *)
Lemma send_request_dispatches py_int TARGET_CHAT_RAW update w :
  exists ev rest,
    trace (snd (send_request py_int TARGET_CHAT_RAW update w)) = trace w ++ ev :: rest /\
    dispatches (build_dispatch_html update w) ev.
Proof.
  rewrite send_request_run. simpl.
  destruct (get_target_chat py_int TARGET_CHAT_RAW) as [chat|]; simpl.
  - destruct (outcome 0 w) as [[|]|]; simpl.
    + eexists _, [_]. rewrite <- app_assoc. simpl. split; reflexivity.
    + eexists _, []. split; reflexivity.
    + eexists _, []. split; reflexivity.
  - eexists _, []. split; reflexivity.
Qed.

(** C7. With a recipient, a first attempt that times out is followed by one
    more attempt with the same chat, text and parse mode, whose outcome is
    the outcome of the dispatch; any other outcome of the first attempt is
    the outcome of the dispatch, and nothing more is sent. *)
Theorem send_request_retry_once (py_int : pystr -> option Z) (TARGET_CHAT_RAW : pystr)
    (update : Update.t) (chat : Z) (w : World) :
  get_target_chat py_int TARGET_CHAT_RAW = Some chat ->
  let attempt :=
    send_message chat (build_dispatch_html update w) (Some ParseMode.HTML) in
  let r := fst (send_request py_int TARGET_CHAT_RAW update w) in
  let w' := snd (send_request py_int TARGET_CHAT_RAW update w) in
  user_data w' = user_data w /\
  match outcome 0 w with
  | Some TimedOut =>
      trace w' = trace w ++ [attempt (Some TimedOut); attempt (outcome 1 w)] /\
      r = result_of (outcome 1 w) /\
      net w' = tail (tail (net w))
  | o =>
      trace w' = trace w ++ [attempt o] /\
      r = result_of o /\
      net w' = tail (net w)
  end.
Proof.
  intros Hchat attempt r w'. subst r w'.
  split; [apply send_request_user_data|].
  rewrite send_request_run, Hchat. simpl.
  assert (E : forall ev,
             outcome 0 (with_net (tail (net w)) (with_event ev (tick w))) = outcome 1 w).
  { intros ev. unfold outcome. simpl. destruct (net w); reflexivity. }
  destruct (outcome 0 w) as [[|]|] eqn:E0; simpl.
  - rewrite !E, <- app_assoc. repeat split.
  - repeat split.
  - repeat split.
Qed.

Lemma send_request_retry_once_witness :
  fst (send_request int_ascii (py "-100123") Sample.alice
         (Sample.session Sample.at_confirm [Some TimedOut; None]))
  = Ret tt.
Proof.
  apply (send_request_retry_once int_ascii (py "-100123") Sample.alice (-100123)
           (Sample.session Sample.at_confirm [Some TimedOut; None]) eq_refl).
Defined.

(** C8. Without a recipient the dispatch returns normally, whatever the
    session, the sender and the network, and all it does is to print the
    rendered request, for which the time has been read. *)
Theorem send_request_no_recipient (py_int : pystr -> option Z)
    (update : Update.t) (w : World) :
  send_request py_int [] update w
  = (Ret tt, with_event (print (build_dispatch_html update w)) (tick w)).
Proof. rewrite send_request_run. reflexivity. Qed.

(** C10. A recipient value that [int] rejects gives no target chat, and the
    dispatch then does what it does without a recipient: it prints the
    request and returns normally. *)
Theorem invalid_recipient_is_absent (py_int : pystr -> option Z)
    (TARGET_CHAT_RAW : pystr) (update : Update.t) (w : World) :
  py_int TARGET_CHAT_RAW = None ->
  get_target_chat py_int TARGET_CHAT_RAW = None /\
  send_request py_int TARGET_CHAT_RAW update w = send_request py_int [] update w /\
  send_request py_int TARGET_CHAT_RAW update w
  = (Ret tt, with_event (print (build_dispatch_html update w)) (tick w)).
Proof.
  intros H.
  assert (E : get_target_chat py_int TARGET_CHAT_RAW = None).
  { unfold get_target_chat. rewrite H. destruct (truthy TARGET_CHAT_RAW); reflexivity. }
  split; [exact E|].
  rewrite !send_request_run, E. split; reflexivity.
Qed.

Lemma invalid_recipient_is_absent_witness :
  get_target_chat int_ascii (py "service-chat") = None.
Proof.
  apply (invalid_recipient_is_absent int_ascii (py "service-chat") Sample.alice
           (Sample.session Sample.at_confirm []) eq_refl).
Defined.

(** ** The CONFIRM step *)

Lemma send_is_no_edit :
  TXT.send <> TXT.edit_number /\ TXT.send <> TXT.edit_type /\
  TXT.send <> TXT.edit_desc.
Proof. repeat split; vm_compute; discriminate. Qed.

Lemma handle_confirm_step_send_run (py_int : pystr -> option Z)
    (TARGET_CHAT_RAW : pystr) (update : Update.t) (w : World) :
  handle_confirm_step py_int TARGET_CHAT_RAW update TXT.send w
  = match send_request py_int TARGET_CHAT_RAW update w with
    | (Ret _, w1) =>
        match safe_reply update Msg.done (Some ReplyKeyboardRemove) None w1 with
        | (Ret _, w2) => (Ret tt, with_user_data (fun _ => ∅) w2)
        | (Raise _, w2) => safe_reply update Msg.send_failed (Some CONFIRM_KB) None w2
        end
    | (Raise _, w1) => safe_reply update Msg.send_failed (Some CONFIRM_KB) None w1
    end.
Proof.
  destruct send_is_no_edit as (H1 & H2 & H3).
  unfold handle_confirm_step.
  destruct (decide (TXT.send = TXT.edit_number)) as [E|_]; [destruct (H1 E)|].
  destruct (decide (TXT.send = TXT.edit_type)) as [E|_]; [destruct (H2 E)|].
  destruct (decide (TXT.send = TXT.edit_desc)) as [E|_]; [destruct (H3 E)|].
  destruct (decide (TXT.send <> TXT.send)) as [E|_]; [destruct (E eq_refl)|].
  unfold try_except, bind, modify_user_data, is_Exception.
  destruct (send_request py_int TARGET_CHAT_RAW update w) as [[[]|e] w1]; [|reflexivity].
  destruct (safe_reply update Msg.done (Some ReplyKeyboardRemove) None w1)
    as [[[]|e] w2]; reflexivity.
Qed.

Lemma safe_reply_run update (m : Message.t) text reply_markup parse_mode w :
  Update.message update = Some m ->
  safe_reply update text reply_markup parse_mode w
  = (result_of (outcome 0 w),
     with_net (tail (net w))
       (with_event (reply_text text reply_markup parse_mode (outcome 0 w)) w)).
Proof. intros H. unfold safe_reply. rewrite H. reflexivity. Qed.

Lemma outcome_after_call (ev : event) (w : World) :
  outcome 0 (with_net (tail (net w)) (with_event ev w)) = outcome 1 w.
Proof. unfold outcome. simpl. destruct (net w); reflexivity. Qed.

(** C6 (amended). On "send" at the CONFIRM step: when the dispatch fails,
    the session is left as it was and the failure message is sent; when the
    dispatch succeeds and the completion message is delivered, the session
    is cleared. *)
Theorem handle_confirm_step_send_spec (py_int : pystr -> option Z)
    (TARGET_CHAT_RAW : pystr) (update : Update.t) (m : Message.t) (w : World) :
  Update.message update = Some m ->
  let r1 := fst (send_request py_int TARGET_CHAT_RAW update w) in
  let w1 := snd (send_request py_int TARGET_CHAT_RAW update w) in
  let w' := snd (handle_confirm_step py_int TARGET_CHAT_RAW update TXT.send w) in
  (forall e, r1 = Raise e ->
     user_data w' = user_data w /\
     trace w'
     = trace w1 ++ [reply_text Msg.send_failed (Some CONFIRM_KB) None (outcome 0 w1)]) /\
  (r1 = Ret tt -> outcome 0 w1 = None ->
     user_data w' = ∅ /\
     trace w'
     = trace w1 ++ [reply_text Msg.done (Some ReplyKeyboardRemove) None None]).
Proof.
  intros Hm r1 w1 w'. subst r1 w1 w'.
  rewrite handle_confirm_step_send_run.
  pose proof (send_request_user_data py_int TARGET_CHAT_RAW update w) as Hd.
  destruct (send_request py_int TARGET_CHAT_RAW update w) as [[[]|e1] w1]; simpl in *.
  - split; [discriminate|]. intros _ Ho.
    rewrite (safe_reply_run _ m) by exact Hm. rewrite Ho. simpl.
    split; reflexivity.
  - split; [|discriminate]. intros e _.
    rewrite (safe_reply_run _ m) by exact Hm. simpl.
    split; [exact Hd | reflexivity].
Qed.

Lemma handle_confirm_step_send_witness :
  user_data
    (snd (handle_confirm_step int_ascii (py "-100123") Sample.alice TXT.send
            (Sample.session Sample.at_confirm [Some OtherError])))
  = Sample.at_confirm.
Proof.
  apply (proj1 (handle_confirm_step_send_spec int_ascii (py "-100123") Sample.alice _
                  (Sample.session Sample.at_confirm [Some OtherError]) eq_refl)
           OtherError).
  reflexivity.
Defined.

(** C6, as stated, fails: the request is delivered to the recipient, the
    completion message to the user is not, and the session is not cleared. *)
Lemma handle_confirm_step_send_not_cleared :
  let w := Sample.session Sample.at_confirm [None; Some OtherError] in
  fst (send_request int_ascii (py "-100123") Sample.alice w) = Ret tt /\
  user_data (snd (handle_confirm_step int_ascii (py "-100123") Sample.alice TXT.send w))
  = Sample.at_confirm /\
  Sample.at_confirm <> ∅.
Proof.
  split; [reflexivity|]. split; [reflexivity|].
  intros H. apply (f_equal (fun d => d !! "step"%string)) in H.
  vm_compute in H. discriminate.
Qed.

Lemma safe_reply_extends update text reply_markup parse_mode w :
  exists more,
    trace (snd (safe_reply update text reply_markup parse_mode w)) = trace w ++ more.
Proof.
  unfold safe_reply. destruct (Update.message update); simpl.
  - eexists [_]. reflexivity.
  - exists []. symmetry. apply app_nil_r.
Qed.

Lemma handle_confirm_step_send_extends py_int TARGET_CHAT_RAW update w :
  exists more,
    trace (snd (handle_confirm_step py_int TARGET_CHAT_RAW update TXT.send w))
    = trace (snd (send_request py_int TARGET_CHAT_RAW update w)) ++ more.
Proof.
  rewrite handle_confirm_step_send_run.
  destruct (send_request py_int TARGET_CHAT_RAW update w) as [[[]|e1] w1]; simpl.
  - destruct (safe_reply_extends update Msg.done (Some ReplyKeyboardRemove) None w1)
      as [more1 H1].
    destruct (safe_reply update Msg.done (Some ReplyKeyboardRemove) None w1)
      as [[[]|e2] w2]; simpl in *.
    + exists more1. exact H1.
    + destruct (safe_reply_extends update Msg.send_failed (Some CONFIRM_KB) None w2)
        as [more2 H2].
      exists (more1 ++ more2). rewrite H2, H1. symmetry. apply app_assoc.
  - apply safe_reply_extends.
Qed.

(** C9. When the dispatch succeeds and the completion message then raises,
    the session is left as it was, at CONFIRM with its fields, and the
    failure message is sent to the user. A following "send" dispatches the
    request again: what it hands over is rendered from the same session and
    sender as the first time, with the time that is read then. *)
Theorem completion_failure_keeps_session (py_int : pystr -> option Z)
    (TARGET_CHAT_RAW : pystr) (update : Update.t) (m : Message.t) (e : exn)
    (w : World) :
  Update.message update = Some m ->
  fst (send_request py_int TARGET_CHAT_RAW update w) = Ret tt ->
  let w1 := snd (send_request py_int TARGET_CHAT_RAW update w) in
  outcome 0 w1 = Some e ->
  let r := fst (handle_confirm_step py_int TARGET_CHAT_RAW update TXT.send w) in
  let w2 := snd (handle_confirm_step py_int TARGET_CHAT_RAW update TXT.send w) in
  user_data w2 = user_data w /\
  trace w2
  = trace w1 ++
    [ reply_text Msg.done (Some ReplyKeyboardRemove) None (Some e);
      reply_text Msg.send_failed (Some CONFIRM_KB) None (outcome 1 w1) ] /\
  r = result_of (outcome 1 w1) /\
  now w2 = now (tick w) /\
  build_dispatch_html update w2 = build_dispatch_html update (with_now (now w2) w) /\
  exists ev rest,
    trace (snd (handle_confirm_step py_int TARGET_CHAT_RAW update TXT.send w2))
    = trace w2 ++ ev :: rest /\
    dispatches (build_dispatch_html update w2) ev.
Proof.
  intros Hm Hok w1 Ho r w2.
  assert (Hrun : handle_confirm_step py_int TARGET_CHAT_RAW update TXT.send w
                 = (result_of (outcome 1 w1),
                    with_net (tail (tail (net w1)))
                      (with_event
                         (reply_text Msg.send_failed (Some CONFIRM_KB) None (outcome 1 w1))
                         (with_event
                            (reply_text Msg.done (Some ReplyKeyboardRemove) None (Some e))
                            w1)))).
  { rewrite handle_confirm_step_send_run. subst w1.
    destruct (send_request py_int TARGET_CHAT_RAW update w) as [[[]|e1] w1];
      simpl in *; [|discriminate].
    rewrite (safe_reply_run _ m) by exact Hm. rewrite Ho. simpl.
    rewrite (safe_reply_run _ m) by exact Hm.
    rewrite outcome_after_call. reflexivity. }
  assert (Hd : user_data w2 = user_data w).
  { subst w2. rewrite Hrun. simpl. apply send_request_user_data. }
  split; [exact Hd|]. split.
  { subst w2. rewrite Hrun. simpl. rewrite <- app_assoc. reflexivity. }
  split; [subst r; rewrite Hrun; reflexivity|].
  split.
  { subst w2. rewrite Hrun. simpl. apply send_request_clock. }
  split; [apply build_dispatch_html_session, Hd|].
  destruct (send_request_dispatches py_int TARGET_CHAT_RAW update w2)
    as (ev & rest & Ht & Hev).
  destruct (handle_confirm_step_send_extends py_int TARGET_CHAT_RAW update w2)
    as [more Hmore].
  exists ev, (rest ++ more). split.
  - rewrite Hmore, Ht, <- app_assoc. reflexivity.
  - exact Hev.
Qed.

Lemma completion_failure_keeps_session_witness :
  user_data
    (snd (handle_confirm_step int_ascii [] Sample.alice TXT.send
            (Sample.session Sample.at_confirm [Some TimedOut])))
  = Sample.at_confirm /\
  now (snd (handle_confirm_step int_ascii [] Sample.alice TXT.send
              (Sample.session Sample.at_confirm [Some TimedOut])))
  = py "2024-05-01 10:01 UTC".
Proof.
  pose proof (completion_failure_keeps_session int_ascii [] Sample.alice _ TimedOut
                (Sample.session Sample.at_confirm [Some TimedOut])
                eq_refl eq_refl eq_refl) as H.
  destruct H as (H1 & _ & _ & H4 & _).
  split; [exact H1 | exact H4].
Defined.

(** ** The ban list *)

Lemma not_banned_wording (user_id : Z) : Msg.not_banned user_id <> Msg.unbanned user_id.
Proof.
  unfold Msg.not_banned, Msg.unbanned.
  generalize (str_of_int user_id). intros s H.
  apply (f_equal (take 21)) in H. vm_compute in H. discriminate.
Qed.

(** C4 (amended). For an operator and a well-formed argument: a ban of an
    identity that is already in the ban list leaves the set in memory as it
    is, writes the file anew with the sorted list, and answers with the
    message of any ban; an unban of an identity that is not in the ban list
    leaves the set and the file as they are and answers that the identity
    was not in the list, which is not the answer of an unban that removed
    it. *)
Theorem redundant_ban_unban (py_int : pystr -> option Z) (ADMIN_IDS : gset Z)
    (update : Update.t) (m : Message.t) (args : list pystr) (user_id : Z)
    (blocked : gset Z) (w : World) :
  Update.message update = Some m ->
  is_admin ADMIN_IDS update = true ->
  parse_user_id_arg py_int args = Some user_id ->
  bot_blocked w = Some blocked ->
  let after_ban := snd (ban_user py_int ADMIN_IDS update args w) in
  let after_unban := snd (unban_user py_int ADMIN_IDS update args w) in
  (user_id ∈ blocked ->
   bot_blocked after_ban = Some blocked /\
   file after_ban = FileList (Some <$> sorted blocked)) /\
  trace after_ban
  = trace w ++ [reply_text (Msg.banned user_id) None None (outcome 0 w)] /\
  (user_id ∉ blocked ->
   bot_blocked after_unban = Some blocked /\
   file after_unban = file w /\
   trace after_unban
   = trace w ++ [reply_text (Msg.not_banned user_id) None None (outcome 0 w)]) /\
  Msg.not_banned user_id <> Msg.unbanned user_id.
Proof.
  intros Hm Hadmin Hparse Hblocked after_ban after_unban.
  subst after_ban after_unban.
  unfold ban_user, unban_user. rewrite Hadmin, Hparse. simpl.
  unfold bind, blocked_users, save_blocked_users, safe_reply.
  rewrite Hm, Hblocked. simpl.
  split; [|split; [|split]].
  - intros Hin.
    assert (E : blocked ∪ {[user_id]} = blocked).
    { apply set_eq. intros x. rewrite elem_of_union, elem_of_singleton.
      split; [intros [?| ->]; assumption | auto]. }
    rewrite E. split; reflexivity.
  - reflexivity.
  - intros Hout. rewrite (bool_decide_eq_false_2 _ Hout). simpl.
    repeat split. exact Hblocked.
  - apply not_banned_wording.
Qed.

Lemma redundant_ban_unban_witness :
  bot_blocked (snd (ban_user int_ascii Sample.ADMIN_IDS Sample.operator [py "555"]
                      Sample.banned555))
  = Some {[555]}.
Proof.
  apply (proj1 (redundant_ban_unban int_ascii Sample.ADMIN_IDS Sample.operator _
                  [py "555"] 555 {[555]} Sample.banned555
                  eq_refl eq_refl eq_refl eq_refl)).
  apply elem_of_singleton. reflexivity.
Defined.

(** C4, as stated, fails for [ban]: banning 555 when it is banned already
    gives the reply that banning it for the first time gives, and banning 5
    after a start-up from a file that lists 7 before 5 changes the file. *)
Lemma redundant_ban_is_not_reported :
  555 ∈ default ∅ (bot_blocked Sample.banned555) /\
  trace (snd (ban_user int_ascii Sample.ADMIN_IDS Sample.operator [py "555"]
                Sample.banned555))
  = trace (snd (ban_user int_ascii Sample.ADMIN_IDS Sample.operator [py "555"]
                  Sample.nobody_banned)) /\
  5 ∈ default ∅ (bot_blocked Sample.banned_unsorted) /\
  file (snd (ban_user int_ascii Sample.ADMIN_IDS Sample.operator [py "5"]
               Sample.banned_unsorted))
  <> file Sample.banned_unsorted.
Proof.
  split; [|split; [|split]].
  - apply (bool_decide_unpack (555 ∈ default ∅ (bot_blocked Sample.banned555))).
    vm_compute. exact I.
  - vm_compute. reflexivity.
  - apply (bool_decide_unpack (5 ∈ default ∅ (bot_blocked Sample.banned_unsorted))).
    vm_compute. exact I.
  - vm_compute. discriminate.
Qed.

(** ** Routing *)

Lemma steps_distinct :
  Step.TYPE <> Step.NUMBER /\ Step.DESCRIPTION <> Step.NUMBER /\
  Step.DESCRIPTION <> Step.TYPE /\ Step.CONFIRM <> Step.NUMBER /\
  Step.CONFIRM <> Step.TYPE /\ Step.CONFIRM <> Step.DESCRIPTION.
Proof. repeat split; vm_compute; discriminate. Qed.

(** A text message in a private chat, from a user who is not turned away and
    which is neither of the two keywords, reaches the handler of the step
    the session is at, trimmed. *)
Lemma handle_message_routes (upper_char : Z -> pystr) (py_int : pystr -> option Z)
    (TARGET_CHAT_RAW : pystr) (ADMIN_IDS : gset Z) (update : Update.t)
    (m : Message.t) (raw : pystr) (w w1 : World) :
  Update.chat_is_private update = true ->
  Update.message update = Some m ->
  Message.text m = Some raw ->
  truthy raw = true ->
  reject_if_blocked ADMIN_IDS update w = (Ret false, w1) ->
  strip raw <> TXT.cancel ->
  strip raw <> TXT.restart ->
  let run := handle_message upper_char py_int TARGET_CHAT_RAW ADMIN_IDS update w in
  (user_data w1 !! "step"%string = Some Step.NUMBER ->
   run = handle_number_step upper_char update (strip raw) w1) /\
  (user_data w1 !! "step"%string = Some Step.TYPE ->
   run = handle_type_step update (strip raw) w1) /\
  (user_data w1 !! "step"%string = Some Step.DESCRIPTION ->
   run = handle_description_step update (strip raw) w1) /\
  (user_data w1 !! "step"%string = Some Step.CONFIRM ->
   run = handle_confirm_step py_int TARGET_CHAT_RAW update (strip raw) w1).
Proof.
  intros Hp Hm Ht Hraw Hrej Hc Hr run. subst run.
  destruct steps_distinct as (D1 & D2 & D3 & D4 & D5 & D6).
  unfold handle_message. rewrite Hp, Hm. simpl. rewrite Ht, Hraw. simpl.
  unfold bind. rewrite Hrej.
  destruct (decide (strip raw = TXT.cancel)) as [E|_]; [destruct (Hc E)|].
  destruct (decide (strip raw = TXT.restart)) as [E|_]; [destruct (Hr E)|].
  cbv beta iota zeta. unfold pystr in *.
  (split; [|split; [|split]]); intros Hs; rewrite Hs; clear Hs;
    cbv beta iota delta [from_option id];
    change (truthy Step.NUMBER) with true;
    change (truthy Step.TYPE) with true;
    change (truthy Step.DESCRIPTION) with true;
    change (truthy Step.CONFIRM) with true; cbn [negb];
    clear - D1 D2 D3 D4 D5 D6; revert D1 D2 D3 D4 D5 D6;
    generalize Step.NUMBER, Step.TYPE, Step.DESCRIPTION, Step.CONFIRM;
    intros sn st sd sc D1 D2 D3 D4 D5 D6;
    repeat case_decide; first [reflexivity | congruence].
Qed.

(** * Further properties *)

(** ** The ban list: file, set and commands *)

Lemma sorted_elem (blocked : gset Z) (z : Z) : z ∈ sorted blocked <-> z ∈ blocked.
Proof.
  unfold sorted. rewrite merge_sort_Permutation. apply elem_of_elements.
Qed.

Lemma sorted_NoDup (blocked : gset Z) : NoDup (sorted blocked).
Proof.
  unfold sorted. rewrite merge_sort_Permutation. apply NoDup_elements.
Qed.

Lemma omap_Some (l : list Z) : omap (fun item => item) (Some <$> l) = l.
Proof. induction l as [|z l IH]; simpl; [reflexivity|]. f_equal. exact IH. Qed.

Lemma load_sorted (blocked : gset Z) :
  load_blocked_users (FileList (Some <$> sorted blocked)) = blocked.
Proof.
  unfold load_blocked_users. rewrite omap_Some.
  apply set_eq. intros z. rewrite elem_of_list_to_set. apply sorted_elem.
Qed.

(** X1. What [save_blocked_users] writes, [load_blocked_users] reads back
    as the same set. *)
Theorem save_then_load (blocked : gset Z) (w : World) :
  load_blocked_users (file (snd (save_blocked_users blocked w))) = blocked.
Proof. apply load_sorted. Qed.

Lemma StronglySorted_le_lt (l : list Z) :
  StronglySorted Z.le l -> NoDup l -> StronglySorted Z.lt l.
Proof.
  induction 1 as [|z l Hs IH Hz]; intros Hd; [constructor|].
  apply NoDup_cons in Hd as [Hnot Hd]. constructor; [apply IH, Hd|].
  rewrite List.Forall_forall in Hz |- *. intros y Hy.
  specialize (Hz y Hy). assert (y <> z).
  { intros ->. apply Hnot. apply list_elem_of_In, Hy. }
  lia.
Qed.

(** X2. The file written holds exactly the members of the set, each once,
    in strictly ascending order. *)
Theorem saved_file_ascending (blocked : gset Z) (w : World) :
  exists l,
    file (snd (save_blocked_users blocked w)) = FileList (Some <$> l) /\
    StronglySorted Z.lt l /\
    forall z, z ∈ l <-> z ∈ blocked.
Proof.
  exists (sorted blocked). split; [reflexivity|]. split.
  - apply StronglySorted_le_lt; [|apply sorted_NoDup].
    unfold sorted. apply StronglySorted_merge_sort; apply _.
  - intros z. apply sorted_elem.
Qed.

(** The world in which the ban list has been read into [bot_data], as the
    first call of [blocked_users] leaves it. *)
Lemma blocked_users_run (w : World) :
  exists w1,
    blocked_users w = (Ret (effective_blocked w), w1) /\
    bot_blocked w1 = Some (effective_blocked w) /\
    user_data w1 = user_data w /\ file w1 = file w /\
    trace w1 = trace w /\ net w1 = net w /\ now w1 = now w.
Proof.
  unfold blocked_users, effective_blocked.
  destruct (bot_blocked w) as [users|] eqn:E.
  - exists w. rewrite E. repeat split.
  - eexists. split; [reflexivity|]. repeat split.
Qed.

Lemma safe_reply_frame update text reply_markup parse_mode w :
  let w' := snd (safe_reply update text reply_markup parse_mode w) in
  user_data w' = user_data w /\ bot_blocked w' = bot_blocked w /\
  file w' = file w /\ now w' = now w.
Proof. unfold safe_reply. destruct (Update.message update); repeat split. Qed.

Lemma ban_user_run (py_int : pystr -> option Z) (ADMIN_IDS : gset Z)
    (update : Update.t) (args : list pystr) (user_id : Z) (w : World) :
  is_admin ADMIN_IDS update = true ->
  parse_user_id_arg py_int args = Some user_id ->
  let w' := snd (ban_user py_int ADMIN_IDS update args w) in
  bot_blocked w' = Some (effective_blocked w ∪ {[user_id]}) /\
  file w' = FileList (Some <$> sorted (effective_blocked w ∪ {[user_id]})) /\
  user_data w' = user_data w.
Proof.
  intros Ha Hp w'.
  destruct (blocked_users_run w) as (w1 & Hrun & Hb & Hd & Hf & _).
  assert (E : ban_user py_int ADMIN_IDS update args w
              = safe_reply update (Msg.banned user_id) None None
                  (with_file
                     (FileList (Some <$> sorted (effective_blocked w ∪ {[user_id]})))
                     (with_blocked (effective_blocked w ∪ {[user_id]}) w1))).
  { unfold ban_user. rewrite Ha, Hp. simpl. unfold bind at 1. rewrite Hrun.
    reflexivity. }
  subst w'. rewrite E.
  match goal with
  | |- context [safe_reply ?u ?t ?k ?p ?x] =>
      destruct (safe_reply_frame u t k p x) as (E1 & E2 & E3 & _)
  end.
  rewrite E1, E2, E3. simpl. repeat split. exact Hd.
Qed.

Lemma unban_user_run (py_int : pystr -> option Z) (ADMIN_IDS : gset Z)
    (update : Update.t) (args : list pystr) (user_id : Z) (w : World) :
  is_admin ADMIN_IDS update = true ->
  parse_user_id_arg py_int args = Some user_id ->
  let w' := snd (unban_user py_int ADMIN_IDS update args w) in
  bot_blocked w' = Some (effective_blocked w ∖ {[user_id]}) /\
  file w'
  = (if bool_decide (user_id ∈ effective_blocked w)
     then FileList (Some <$> sorted (effective_blocked w ∖ {[user_id]}))
     else file w) /\
  user_data w' = user_data w.
Proof.
  intros Ha Hp w'.
  destruct (blocked_users_run w) as (w1 & Hrun & Hb & Hd & Hf & _).
  destruct (bool_decide (user_id ∈ effective_blocked w)) eqn:Hin.
  - assert (E : unban_user py_int ADMIN_IDS update args w
                = safe_reply update (Msg.unbanned user_id) None None
                    (with_file
                       (FileList (Some <$> sorted (effective_blocked w ∖ {[user_id]})))
                       (with_blocked (effective_blocked w ∖ {[user_id]}) w1))).
    { unfold unban_user. rewrite Ha, Hp. simpl. unfold bind at 1. rewrite Hrun, Hin.
      reflexivity. }
    subst w'. rewrite E.
    match goal with
    | |- context [safe_reply ?u ?t ?k ?p ?x] =>
        destruct (safe_reply_frame u t k p x) as (E1 & E2 & E3 & _)
    end.
    rewrite E1, E2, E3. simpl. repeat split. exact Hd.
  - assert (E : unban_user py_int ADMIN_IDS update args w
                = safe_reply update (Msg.not_banned user_id) None None w1).
    { unfold unban_user. rewrite Ha, Hp. simpl. unfold bind at 1. rewrite Hrun, Hin.
      reflexivity. }
    subst w'. rewrite E.
    destruct (safe_reply_frame update (Msg.not_banned user_id) None None w1)
      as (E1 & E2 & E3 & _).
    rewrite E1, E2, E3, Hb, Hd, Hf. repeat split.
    f_equal. apply bool_decide_eq_false in Hin.
    apply set_eq. intros z. rewrite elem_of_difference, elem_of_singleton.
    split; [intros Hz; split; [exact Hz | intros ->; contradiction] | tauto].
Qed.

(** X3. A ban by an operator adds the identity to the ban list in force and
    writes the file anew, so that the file and the set in memory agree
    afterwards; the session is not touched. *)
Theorem ban_user_adds (py_int : pystr -> option Z) (ADMIN_IDS : gset Z)
    (update : Update.t) (args : list pystr) (user_id : Z) (w : World) :
  is_admin ADMIN_IDS update = true ->
  parse_user_id_arg py_int args = Some user_id ->
  let w' := snd (ban_user py_int ADMIN_IDS update args w) in
  effective_blocked w' = effective_blocked w ∪ {[user_id]} /\
  load_blocked_users (file w') = effective_blocked w' /\
  user_data w' = user_data w.
Proof.
  intros Ha Hp w'.
  destruct (ban_user_run py_int ADMIN_IDS update args user_id w Ha Hp)
    as (Hb & Hf & Hd).
  fold w' in Hb, Hf, Hd. unfold effective_blocked at 1 3.
  rewrite Hb, Hf. split; [reflexivity|]. split; [apply load_sorted | exact Hd].
Qed.

Lemma ban_user_adds_witness :
  effective_blocked
    (snd (ban_user int_ascii Sample.ADMIN_IDS Sample.operator [py " 777 "]
            Sample.banned555))
  = {[555]} ∪ {[777]}.
Proof.
  apply (proj1 (ban_user_adds int_ascii Sample.ADMIN_IDS Sample.operator
                  [py " 777 "] 777 Sample.banned555 eq_refl eq_refl)).
Defined.

(** X4. An unban by an operator removes the identity from the ban list in
    force; the file is written anew when the identity was banned and left
    alone when it was not. *)
Theorem unban_user_removes (py_int : pystr -> option Z) (ADMIN_IDS : gset Z)
    (update : Update.t) (args : list pystr) (user_id : Z) (w : World) :
  is_admin ADMIN_IDS update = true ->
  parse_user_id_arg py_int args = Some user_id ->
  let w' := snd (unban_user py_int ADMIN_IDS update args w) in
  effective_blocked w' = effective_blocked w ∖ {[user_id]} /\
  (user_id ∉ effective_blocked w') /\
  (user_id ∈ effective_blocked w ->
   load_blocked_users (file w') = effective_blocked w') /\
  (user_id ∉ effective_blocked w -> file w' = file w) /\
  user_data w' = user_data w.
Proof.
  intros Ha Hp w'.
  destruct (unban_user_run py_int ADMIN_IDS update args user_id w Ha Hp)
    as (Hb & Hf & Hd).
  fold w' in Hb, Hf, Hd.
  assert (He : effective_blocked w' = effective_blocked w ∖ {[user_id]}).
  { unfold effective_blocked at 1. rewrite Hb. reflexivity. }
  split; [exact He|]. split.
  { rewrite He. rewrite elem_of_difference, elem_of_singleton. tauto. }
  split; [|split; [|exact Hd]].
  - intros Hin. rewrite Hf, (bool_decide_eq_true_2 _ Hin), He. apply load_sorted.
  - intros Hout. rewrite Hf, (bool_decide_eq_false_2 _ Hout). reflexivity.
Qed.

Lemma unban_user_removes_witness :
  effective_blocked
    (snd (unban_user int_ascii Sample.ADMIN_IDS Sample.operator [py "555"]
            Sample.banned555))
  = {[555]} ∖ {[555]}.
Proof.
  apply (proj1 (unban_user_removes int_ascii Sample.ADMIN_IDS Sample.operator
                  [py "555"] 555 Sample.banned555 eq_refl eq_refl)).
Defined.

(** ** The gate *)

Lemma same_but_loaded_refl (w : World) : same_but_loaded w w.
Proof. repeat split. Qed.

Lemma reject_if_blocked_run (ADMIN_IDS : gset Z) (update : Update.t) (w : World) :
  exists w1,
    same_but_loaded w w1 /\
    reject_if_blocked ADMIN_IDS update w
    = if turned_away ADMIN_IDS update w
      then (safe_reply update Msg.denied None None ;; ret true) w1
      else (Ret false, w1).
Proof.
  unfold reject_if_blocked, turned_away, is_blocked.
  destruct (is_admin ADMIN_IDS update); simpl.
  { exists w. split; [apply same_but_loaded_refl | reflexivity]. }
  destruct (Update.effective_user update) as [user|]; simpl.
  2: { exists w. split; [apply same_but_loaded_refl | reflexivity]. }
  destruct (blocked_users_run w) as (w1 & Hrun & Hb & Hd & Hf & Ht & Hn & Hw).
  exists w1. split.
  { repeat split; try assumption. unfold effective_blocked at 1. rewrite Hb.
    reflexivity. }
  unfold bind at 1. unfold bind at 1. rewrite Hrun. unfold ret at 1.
  destruct (bool_decide (User.id user ∈ effective_blocked w)); reflexivity.
Qed.

Lemma gate_reply_run (update : Update.t) (m : Message.t) (w1 : World) :
  Update.message update = Some m ->
  (safe_reply update Msg.denied None None ;; ret true) w1
  = (match outcome 0 w1 with None => Ret true | Some e => Raise e end,
     with_net (tail (net w1))
       (with_event (reply_text Msg.denied None None (outcome 0 w1)) w1)).
Proof.
  intros Hm. unfold bind. rewrite (safe_reply_run _ m) by exact Hm.
  destruct (outcome 0 w1); reflexivity.
Qed.

(** X5. [reject_if_blocked] answers "not rejected" exactly for operators and
    for users who are not on the ban list in force, and then sends nothing;
    every other user gets the denial and nothing else. Either way the
    session, the file and the ban list in force stay as they are. *)
Theorem reject_if_blocked_gate (ADMIN_IDS : gset Z) (update : Update.t)
    (m : Message.t) (w : World) :
  Update.message update = Some m ->
  let r := fst (reject_if_blocked ADMIN_IDS update w) in
  let w' := snd (reject_if_blocked ADMIN_IDS update w) in
  (r = Ret false <-> turned_away ADMIN_IDS update w = false) /\
  (turned_away ADMIN_IDS update w = false -> trace w' = trace w) /\
  (turned_away ADMIN_IDS update w = true ->
   trace w' = trace w ++ [reply_text Msg.denied None None (outcome 0 w)] /\
   (outcome 0 w = None -> r = Ret true)) /\
  user_data w' = user_data w /\ file w' = file w /\
  effective_blocked w' = effective_blocked w.
Proof.
  intros Hm r w'. subst r w'.
  destruct (reject_if_blocked_run ADMIN_IDS update w)
    as (w1 & (Hd & Hf & Ht & Hn & _ & He) & ->).
  assert (Ho : outcome 0 w1 = outcome 0 w) by (unfold outcome; rewrite Hn; reflexivity).
  destruct (turned_away ADMIN_IDS update w).
  - rewrite (gate_reply_run _ m) by exact Hm. simpl. rewrite Ho, Ht.
    split; [split; [destruct (outcome 0 w); discriminate | discriminate]|].
    split; [discriminate|]. split.
    { intros _. split; [reflexivity|]. intros ->. reflexivity. }
    repeat split; assumption.
  - simpl. split; [tauto|]. split; [intros _; exact Ht|].
    split; [discriminate|]. repeat split; assumption.
Qed.

Lemma reject_if_blocked_gate_witness :
  fst (reject_if_blocked Sample.ADMIN_IDS (Sample.user 555 (py "hello")) Sample.banned555)
  = Ret true.
Proof.
  apply (reject_if_blocked_gate Sample.ADMIN_IDS (Sample.user 555 (py "hello")) _
           Sample.banned555 eq_refl).
  - reflexivity.
  - reflexivity.
Defined.

(** X6. Once an operator has banned an identity, a user with that identity
    who is no operator is turned away; once an operator has unbanned it, the
    user is let through. *)
Theorem ban_then_rejected (py_int : pystr -> option Z) (ADMIN_IDS : gset Z)
    (operator : Update.t) (args : list pystr) (user_id : Z)
    (update : Update.t) (user : User.t) (w : World) :
  is_admin ADMIN_IDS operator = true ->
  parse_user_id_arg py_int args = Some user_id ->
  Update.effective_user update = Some user ->
  User.id user = user_id ->
  is_admin ADMIN_IDS update = false ->
  fst (reject_if_blocked ADMIN_IDS update
         (snd (ban_user py_int ADMIN_IDS operator args w))) <> Ret false /\
  fst (reject_if_blocked ADMIN_IDS update
         (snd (unban_user py_int ADMIN_IDS operator args w))) = Ret false.
Proof.
  intros Ha Hp Hu Hid Hna.
  destruct (ban_user_run py_int ADMIN_IDS operator args user_id w Ha Hp) as (Hb & _).
  destruct (unban_user_run py_int ADMIN_IDS operator args user_id w Ha Hp) as (Hb' & _).
  split.
  - destruct (reject_if_blocked_run ADMIN_IDS update
                (snd (ban_user py_int ADMIN_IDS operator args w))) as (w1 & _ & ->).
    assert (E : turned_away ADMIN_IDS update
                  (snd (ban_user py_int ADMIN_IDS operator args w)) = true).
    { unfold turned_away, effective_blocked. rewrite Hna, Hu, Hb, Hid. simpl.
      apply bool_decide_eq_true_2. apply elem_of_union_r, elem_of_singleton.
      reflexivity. }
    rewrite E. unfold bind, ret.
    destruct (safe_reply update Msg.denied None None w1) as [[[]|e] w2];
      simpl; discriminate.
  - destruct (reject_if_blocked_run ADMIN_IDS update
                (snd (unban_user py_int ADMIN_IDS operator args w))) as (w1 & _ & ->).
    assert (E : turned_away ADMIN_IDS update
                  (snd (unban_user py_int ADMIN_IDS operator args w)) = false).
    { unfold turned_away, effective_blocked. rewrite Hna, Hu, Hb', Hid. simpl.
      apply bool_decide_eq_false_2.
      rewrite elem_of_difference, elem_of_singleton. tauto. }
    rewrite E. reflexivity.
Qed.

Lemma ban_then_rejected_witness :
  fst (reject_if_blocked Sample.ADMIN_IDS (Sample.user 777 (py "hello"))
         (snd (unban_user int_ascii Sample.ADMIN_IDS Sample.operator [py "777"]
                 Sample.nobody_banned)))
  = Ret false.
Proof.
  apply (ban_then_rejected int_ascii Sample.ADMIN_IDS Sample.operator [py "777"] 777
           (Sample.user 777 (py "hello")) _ Sample.nobody_banned
           eq_refl eq_refl eq_refl eq_refl eq_refl).
Defined.

(** X7. Without operator rights [ban_user] and [unban_user] change neither
    the ban list nor the file nor the session; with operator rights and no
    argument, or one that [int] rejects, they change nothing either. *)
Theorem ban_commands_refused (py_int : pystr -> option Z) (ADMIN_IDS : gset Z)
    (update : Update.t) (args : list pystr) (w : World) :
  is_admin ADMIN_IDS update = false \/ parse_user_id_arg py_int args = None ->
  let after_ban := snd (ban_user py_int ADMIN_IDS update args w) in
  let after_unban := snd (unban_user py_int ADMIN_IDS update args w) in
  (bot_blocked after_ban = bot_blocked w /\ file after_ban = file w /\
   user_data after_ban = user_data w) /\
  (bot_blocked after_unban = bot_blocked w /\ file after_unban = file w /\
   user_data after_unban = user_data w) /\
  parse_user_id_arg py_int [] = None.
Proof.
  intros H after_ban after_unban. subst after_ban after_unban.
  unfold ban_user, unban_user.
  destruct (is_admin ADMIN_IDS update); simpl.
  - destruct H as [H|H]; [discriminate|]. rewrite H.
    split; [|split; [|reflexivity]];
      match goal with
      | |- context [safe_reply ?u ?t ?k ?p ?x] =>
          destruct (safe_reply_frame u t k p x) as (E1 & E2 & E3 & _)
      end; repeat split; assumption.
  - split; [|split; [|reflexivity]];
      match goal with
      | |- context [safe_reply ?u ?t ?k ?p ?x] =>
          destruct (safe_reply_frame u t k p x) as (E1 & E2 & E3 & _)
      end; repeat split; assumption.
Qed.

Lemma ban_commands_refused_witness :
  bot_blocked (snd (ban_user int_ascii Sample.ADMIN_IDS Sample.alice [py "555"]
                      Sample.nobody_banned))
  = Some ∅.
Proof.
  apply (proj1 (ban_commands_refused int_ascii Sample.ADMIN_IDS Sample.alice
                  [py "555"] Sample.nobody_banned (or_introl eq_refl))).
Defined.

(** X8. [banlist] only reads: whoever sends it, the ban list in force, the
    file and the session are the same afterwards. *)
Theorem banlist_reads_only (ADMIN_IDS : gset Z) (update : Update.t) (w : World) :
  let w' := snd (banlist ADMIN_IDS update w) in
  effective_blocked w' = effective_blocked w /\ file w' = file w /\
  user_data w' = user_data w.
Proof.
  intros w'. subst w'. unfold banlist.
  destruct (is_admin ADMIN_IDS update); simpl.
  - unfold bind.
    destruct (blocked_users_run w) as (w1 & -> & Hb & Hd & Hf & _).
    assert (He : effective_blocked w1 = effective_blocked w)
      by (unfold effective_blocked at 1; rewrite Hb; reflexivity).
    destruct (sorted (effective_blocked w));
      match goal with
      | |- context [safe_reply ?u ?t ?k ?p ?x] =>
          destruct (safe_reply_frame u t k p x) as (E1 & E2 & E3 & _)
      end; unfold effective_blocked at 1; rewrite E1, E2, E3;
      fold (effective_blocked w1); repeat split; assumption.
  - destruct (safe_reply_frame update Msg.admin_only None None w) as (E1 & E2 & E3 & _).
    unfold effective_blocked at 1. rewrite E1, E2, E3. repeat split.
Qed.

(** ** What the handlers do to the session *)

(** Replaces a reply by the world it leaves, of which only the session
    matters below. *)
Ltac reply_done :=
  repeat match goal with
         | |- context [safe_reply ?u ?t ?k ?p ?x] =>
             let H := fresh "Hreply" in
             pose proof (safe_reply_user_data u t k p x) as H;
             destruct (safe_reply u t k p x) as [[[]|?] ?]; simpl in H |- *
         end.

Lemma normalize_plate_clean (upper_char : Z -> pystr) (value : pystr) :
  Forall (fun c => c <> 32 /\ c <> 45) (normalize_plate upper_char value).
Proof.
  unfold normalize_plate. apply Forall_and. split.
  - apply Forall_remove_char, remove_char_gone.
  - apply remove_char_gone.
Qed.

Lemma handle_number_step_session upper_char update text w :
  user_data (snd (handle_number_step upper_char update text w))
  = <["step"%string := Step.TYPE]>
      (<["number"%string := normalize_plate upper_char text]> (user_data w)).
Proof.
  unfold handle_number_step.
  generalize (looks_like_plate upper_char (normalize_plate upper_char text)).
  intros ok. unfold ask_for_type, bind, set_item, modify_user_data. simpl.
  destruct ok; simpl; reply_done; congruence.
Qed.

Lemma handle_type_step_session update text w :
  user_data (snd (handle_type_step update text w))
  = if bool_decide (text ∈ concat PROBLEM_TYPES)
    then <["step"%string := Step.DESCRIPTION]> (<["type"%string := text]> (user_data w))
    else user_data w.
Proof.
  unfold handle_type_step.
  destruct (decide (text ∉ allowed)) as [Hno|Hyes].
  - rewrite allowed_labels in Hno. rewrite (bool_decide_eq_false_2 _ Hno).
    apply safe_reply_user_data.
  - apply dec_stable in Hyes. rewrite allowed_labels in Hyes.
    rewrite (bool_decide_eq_true_2 _ Hyes).
    unfold ask_for_description, bind, set_item, modify_user_data. simpl.
    apply safe_reply_user_data.
Qed.

Lemma handle_description_step_session update text w :
  user_data (snd (handle_description_step update text w))
  = if len (strip text) <? 3 then user_data w
    else <["step"%string := Step.CONFIRM]>
           (<["description"%string := strip text]> (user_data w)).
Proof.
  unfold handle_description_step. destruct (len (strip text) <? 3).
  - apply safe_reply_user_data.
  - unfold bind, set_item, modify_user_data. simpl.
    rewrite safe_reply_user_data. reflexivity.
Qed.

Lemma handle_confirm_step_session py_int TARGET_CHAT_RAW update text w :
  let d' := user_data (snd (handle_confirm_step py_int TARGET_CHAT_RAW update text w)) in
  (text = TXT.edit_number -> d' = <["step"%string := Step.NUMBER]> (user_data w)) /\
  (text = TXT.edit_type -> d' = <["step"%string := Step.TYPE]> (user_data w)) /\
  (text = TXT.edit_desc -> d' = <["step"%string := Step.DESCRIPTION]> (user_data w)) /\
  (text = TXT.send -> d' = user_data w \/ d' = ∅) /\
  (text <> TXT.edit_number -> text <> TXT.edit_type -> text <> TXT.edit_desc ->
   text <> TXT.send -> d' = user_data w).
Proof.
  intros d'. subst d'.
  assert (Hsend : user_data (snd (handle_confirm_step py_int TARGET_CHAT_RAW update
                                    TXT.send w)) = user_data w
                  \/ user_data (snd (handle_confirm_step py_int TARGET_CHAT_RAW update
                                       TXT.send w)) = ∅).
  { rewrite handle_confirm_step_send_run.
    pose proof (send_request_user_data py_int TARGET_CHAT_RAW update w) as Hd.
    destruct (send_request py_int TARGET_CHAT_RAW update w) as [[[]|e1] w1];
      simpl in Hd; reply_done; auto; left; congruence. }
  destruct send_is_no_edit as (N1 & N2 & N3).
  assert (N4 : TXT.edit_number <> TXT.edit_type) by (vm_compute; discriminate).
  assert (N5 : TXT.edit_number <> TXT.edit_desc) by (vm_compute; discriminate).
  assert (N6 : TXT.edit_type <> TXT.edit_desc) by (vm_compute; discriminate).
  split; [|split; [|split; [|split]]].
  - intros ->. unfold handle_confirm_step.
    destruct (decide (TXT.edit_number = TXT.edit_number)) as [_|N]; [|destruct (N eq_refl)].
    unfold bind, set_item, modify_user_data. simpl. apply safe_reply_user_data.
  - intros ->. unfold handle_confirm_step.
    destruct (decide (TXT.edit_type = TXT.edit_number)) as [E|_];
      [symmetry in E; destruct (N4 E)|].
    destruct (decide (TXT.edit_type = TXT.edit_type)) as [_|N]; [|destruct (N eq_refl)].
    unfold ask_for_type, bind, set_item, modify_user_data. simpl.
    apply safe_reply_user_data.
  - intros ->. unfold handle_confirm_step.
    destruct (decide (TXT.edit_desc = TXT.edit_number)) as [E|_];
      [symmetry in E; destruct (N5 E)|].
    destruct (decide (TXT.edit_desc = TXT.edit_type)) as [E|_];
      [symmetry in E; destruct (N6 E)|].
    destruct (decide (TXT.edit_desc = TXT.edit_desc)) as [_|N]; [|destruct (N eq_refl)].
    unfold ask_for_description, bind, set_item, modify_user_data. simpl.
    apply safe_reply_user_data.
  - intros ->. exact Hsend.
  - intros H1 H2 H3 H4. unfold handle_confirm_step.
    destruct (decide (text = TXT.edit_number)) as [E|_]; [destruct (H1 E)|].
    destruct (decide (text = TXT.edit_type)) as [E|_]; [destruct (H2 E)|].
    destruct (decide (text = TXT.edit_desc)) as [E|_]; [destruct (H3 E)|].
    destruct (decide (text <> TXT.send)) as [_|N]; [|destruct (N H4)].
    apply safe_reply_user_data.
Qed.

Lemma gate_session (ADMIN_IDS : gset Z) (update : Update.t) (w : World) :
  exists b w1,
    reject_if_blocked ADMIN_IDS update w = (b, w1) /\
    user_data w1 = user_data w /\
    (b = Ret false -> turned_away ADMIN_IDS update w1 = false).
Proof.
  destruct (reject_if_blocked_run ADMIN_IDS update w)
    as (w1 & (Hd & _ & _ & _ & _ & He) & ->).
  destruct (turned_away ADMIN_IDS update w) eqn:Ht.
  - unfold bind, ret. reply_done; eexists _, _;
      (split; [reflexivity|]); (split; [congruence | discriminate]).
  - exists (Ret false), w1. split; [reflexivity|]. split; [exact Hd|].
    intros _. unfold turned_away in *. rewrite He. exact Ht.
Qed.

Lemma gate_open_again (ADMIN_IDS : gset Z) (update : Update.t) (w : World) :
  turned_away ADMIN_IDS update w = false ->
  exists w1,
    reject_if_blocked ADMIN_IDS update w = (Ret false, w1) /\
    user_data w1 = user_data w.
Proof.
  intros Ht.
  destruct (reject_if_blocked_run ADMIN_IDS update w)
    as (w1 & (Hd & _) & ->).
  rewrite Ht. exists w1. split; [reflexivity | exact Hd].
Qed.

Lemma cancel_session (ADMIN_IDS : gset Z) (update : Update.t) (w : World) :
  user_data (snd (cancel ADMIN_IDS update w))
  = if turned_away ADMIN_IDS update w then user_data w else ∅.
Proof.
  unfold cancel.
  destruct (reject_if_blocked_run ADMIN_IDS update w) as (w1 & (Hd & _) & E).
  unfold bind at 1. rewrite E.
  destruct (turned_away ADMIN_IDS update w).
  - unfold bind, ret. reply_done; congruence.
  - unfold bind, modify_user_data. simpl. apply safe_reply_user_data.
Qed.

Lemma reset_session (ADMIN_IDS : gset Z) (update : Update.t) (w : World) :
  let fresh := <["step"%string := Step.NUMBER]> (∅ : gmap string pystr) in
  user_data (snd (restart ADMIN_IDS update w))
  = (if turned_away ADMIN_IDS update w then user_data w else fresh) /\
  user_data (snd (start ADMIN_IDS update w))
  = (if turned_away ADMIN_IDS update w then user_data w else fresh).
Proof.
  intros fresh.
  destruct (reject_if_blocked_run ADMIN_IDS update w) as (w1 & (Hd & _) & E).
  split; [unfold restart | unfold start];
    unfold bind at 1; rewrite E;
    (destruct (turned_away ADMIN_IDS update w);
     [ unfold bind, ret; reply_done; congruence
     | unfold reset_flow, ask_for_number, bind, set_item, modify_user_data; simpl;
       reply_done; subst fresh; congruence ]).
Qed.

Lemma step_of_default (d : gmap string pystr) (s : pystr) :
  truthy s = true ->
  default [] (d !! "step"%string) = s ->
  step_of d = Some s.
Proof.
  unfold step_of, pystr in *. destruct (d !! "step"%string) as [x|]; simpl.
  - intros _ ->. reflexivity.
  - intros H <-. discriminate.
Qed.

Lemma handle_message_step (upper_char : Z -> pystr) (py_int : pystr -> option Z)
    (TARGET_CHAT_RAW : pystr) (ADMIN_IDS : gset Z) (update : Update.t) (w : World) :
  session_step (user_data w)
    (user_data (snd (handle_message upper_char py_int TARGET_CHAT_RAW ADMIN_IDS
                       update w))).
Proof.
  unfold handle_message.
  destruct (Update.chat_is_private update); simpl; [|constructor].
  destruct (Update.message update ≫= Message.text) as [raw|]; [|constructor].
  destruct (truthy raw); simpl; [|constructor].
  destruct (gate_session ADMIN_IDS update w) as (b & w1 & E & Hd & Hopen).
  unfold bind at 1. rewrite E. rewrite <- Hd.
  destruct b as [[|]|e]; simpl; try constructor.
  specialize (Hopen eq_refl).
  destruct (decide (strip raw = TXT.cancel)) as [_|_].
  { rewrite cancel_session, Hopen. constructor. }
  destruct (decide (strip raw = TXT.restart)) as [_|_].
  { rewrite (proj1 (reset_session ADMIN_IDS update w1)), Hopen. constructor. }
  cbv beta zeta.
  destruct (truthy (default [] (user_data w1 !! "step"%string))) eqn:Hset; simpl.
  2: { rewrite safe_reply_user_data. constructor. }
  destruct (decide (default [] (user_data w1 !! "step"%string) = Step.NUMBER))
    as [Hs|_].
  { apply step_of_default in Hs; [|reflexivity].
    rewrite handle_number_step_session.
    apply session_number; [exact Hs | apply normalize_plate_clean]. }
  destruct (decide (default [] (user_data w1 !! "step"%string) = Step.TYPE))
    as [Hs|_].
  { apply step_of_default in Hs; [|reflexivity].
    rewrite handle_type_step_session. case_bool_decide; [|constructor].
    apply session_type; assumption. }
  destruct (decide (default [] (user_data w1 !! "step"%string) = Step.DESCRIPTION))
    as [Hs|_].
  { apply step_of_default in Hs; [|reflexivity].
    rewrite handle_description_step_session.
    destruct (Z.ltb_spec (len (strip (strip raw))) 3); [constructor|].
    apply session_description; [exact Hs | assumption | apply strip_idem]. }
  destruct (decide (default [] (user_data w1 !! "step"%string) = Step.CONFIRM))
    as [Hs|_].
  { apply step_of_default in Hs; [|reflexivity].
    destruct (handle_confirm_step_session py_int TARGET_CHAT_RAW update (strip raw) w1)
      as (H1 & H2 & H3 & H4 & H5).
    destruct (decide (strip raw = TXT.edit_number)) as [T1|T1].
    { rewrite (H1 T1). apply session_edit; [exact Hs|]. apply list_elem_of_here. }
    destruct (decide (strip raw = TXT.edit_type)) as [T2|T2].
    { rewrite (H2 T2). apply session_edit; [exact Hs|].
      apply list_elem_of_further, list_elem_of_here. }
    destruct (decide (strip raw = TXT.edit_desc)) as [T3|T3].
    { rewrite (H3 T3). apply session_edit; [exact Hs|].
      do 2 apply list_elem_of_further. apply list_elem_of_here. }
    destruct (decide (strip raw = TXT.send)) as [T4|T4].
    { destruct (H4 T4) as [-> | ->]; constructor. }
    rewrite (H5 T1 T2 T3 T4). constructor. }
  rewrite (proj1 (reset_session ADMIN_IDS update w1)), Hopen. constructor.
Qed.

Lemma commands_session (py_int : pystr -> option Z) (ADMIN_IDS : gset Z)
    (update : Update.t) (args : list pystr) (w : World) :
  user_data (snd (ban_user py_int ADMIN_IDS update args w)) = user_data w /\
  user_data (snd (unban_user py_int ADMIN_IDS update args w)) = user_data w /\
  user_data (snd (banlist ADMIN_IDS update w)) = user_data w /\
  user_data (snd (help_cmd ADMIN_IDS update w)) = user_data w /\
  user_data (snd (chatid ADMIN_IDS update w)) = user_data w.
Proof.
  destruct (blocked_users_run w) as (w1 & Hrun & _ & Hd & _).
  destruct (gate_session ADMIN_IDS update w) as (b & w2 & E & Hd2 & _).
  split; [|split; [|split; [|split]]].
  - unfold ban_user. destruct (is_admin ADMIN_IDS update); simpl;
      [|apply safe_reply_user_data].
    destruct (parse_user_id_arg py_int args); [|apply safe_reply_user_data].
    unfold bind at 1. rewrite Hrun. unfold bind, save_blocked_users. simpl.
    rewrite safe_reply_user_data. exact Hd.
  - unfold unban_user. destruct (is_admin ADMIN_IDS update); simpl;
      [|apply safe_reply_user_data].
    destruct (parse_user_id_arg py_int args); [|apply safe_reply_user_data].
    unfold bind at 1. rewrite Hrun.
    destruct (bool_decide _); unfold bind, save_blocked_users; simpl;
      rewrite safe_reply_user_data; exact Hd.
  - unfold banlist. destruct (is_admin ADMIN_IDS update); simpl;
      [|apply safe_reply_user_data].
    unfold bind. rewrite Hrun.
    destruct (sorted (effective_blocked w)); rewrite safe_reply_user_data; exact Hd.
  - unfold help_cmd. unfold bind. rewrite E.
    destruct b as [[|]|e]; simpl; try exact Hd2.
    rewrite safe_reply_user_data. exact Hd2.
  - unfold chatid. unfold bind. rewrite E.
    destruct b as [[|]|e]; simpl; try exact Hd2.
    rewrite safe_reply_user_data. exact Hd2.
Qed.

Lemma handle_update_step (upper_char : Z -> pystr) (py_int : pystr -> option Z)
    (TARGET_CHAT_RAW : pystr) (ADMIN_IDS : gset Z) (u : incoming) (w : World) :
  session_step (user_data w)
    (user_data (snd (handle_update upper_char py_int TARGET_CHAT_RAW ADMIN_IDS u w))).
Proof.
  destruct u as [update|update|update|update|update args|update args|update|update];
    simpl.
  - rewrite (proj2 (reset_session ADMIN_IDS update w)).
    destruct (turned_away ADMIN_IDS update w); constructor.
  - rewrite (proj1 (proj2 (proj2 (proj2 (commands_session py_int ADMIN_IDS update [] w))))).
    constructor.
  - rewrite cancel_session. destruct (turned_away ADMIN_IDS update w); constructor.
  - rewrite (proj2 (proj2 (proj2 (proj2 (commands_session py_int ADMIN_IDS update [] w))))).
    constructor.
  - rewrite (proj1 (commands_session py_int ADMIN_IDS update args w)). constructor.
  - rewrite (proj1 (proj2 (commands_session py_int ADMIN_IDS update args w))).
    constructor.
  - rewrite (proj1 (proj2 (proj2 (commands_session py_int ADMIN_IDS update [] w)))).
    constructor.
  - apply handle_message_step.
Qed.

Lemma session_ok_empty : session_ok ∅.
Proof.
  split; unfold step_of, is_set; intros; try rewrite lookup_empty in *; discriminate.
Qed.

(** Looks a key up in a session built by assignments. *)
Ltac look :=
  unfold step_of, is_set in *;
  repeat first
    [ rewrite lookup_insert_eq
    | rewrite lookup_insert_ne by discriminate
    | rewrite lookup_empty ].

Ltac look_in H :=
  unfold step_of, is_set in H;
  repeat first
    [ rewrite lookup_insert_eq in H
    | rewrite lookup_insert_ne in H by discriminate
    | rewrite lookup_empty in H ].

(** Settles one field of [session_ok] after a transition. *)
Ltac ok_field H :=
  look_in H; look;
  first
    [ discriminate H
    | congruence
    | solve [eauto]
    | solve [repeat split; eauto]
    | injection H as H; subst;
      first
        [ assumption
        | solve [split; assumption]
        | solve [rewrite ?elem_of_cons, ?elem_of_nil in *; intuition auto] ] ].

Lemma session_step_ok (d d' : gmap string pystr) :
  session_ok d -> session_step d d' -> session_ok d'.
Proof.
  intros [Ks Kn Kt Kx At Ad Ac] Hstep.
  destruct steps_distinct as (D1 & D2 & D3 & D4 & D5 & D6).
  destruct Hstep as [| | |n Hs Hn|t Hs Ht|x Hs Hl Hx|s Hs Hin].
  - split; assumption.
  - apply session_ok_empty.
  - split; intros; ok_field H.
  - split; intros; ok_field H.
  - specialize (At Hs). split; intros; ok_field H.
  - destruct (Ad Hs) as [A1 A2]. split; intros; ok_field H.
  - destruct (Ac Hs) as (A1 & A2 & A3). split; intros; ok_field H.
Qed.

(** ** The session as a state machine *)

(** X9. Whatever update arrives, in whatever world, the session afterwards
    is the session before or one transition of the machine away: cleared,
    reset to NUMBER, a field stored at its own step with the step advanced,
    or only the step moved back from CONFIRM. *)
Theorem updates_follow_machine (upper_char : Z -> pystr) (py_int : pystr -> option Z)
    (TARGET_CHAT_RAW : pystr) (ADMIN_IDS : gset Z) (u : incoming) (w : World) :
  session_step (user_data w)
    (user_data (snd (handle_update upper_char py_int TARGET_CHAT_RAW ADMIN_IDS u w))).
Proof. apply handle_update_step. Qed.

Lemma run_updates_ok (upper_char : Z -> pystr) (py_int : pystr -> option Z)
    (TARGET_CHAT_RAW : pystr) (ADMIN_IDS : gset Z) (us : list incoming) (w : World) :
  session_ok (user_data w) ->
  session_ok (user_data (run_updates upper_char py_int TARGET_CHAT_RAW ADMIN_IDS us w)).
Proof.
  revert w. induction us as [|u us IH]; intros w Hok; simpl; [exact Hok|].
  apply IH. eapply session_step_ok; [exact Hok | apply handle_update_step].
Qed.

(** X10. A well-formed session stays well-formed through any sequence of
    updates: the step is one of the four, the number has no space or hyphen,
    the category is one of the labels, the description is trimmed and at
    least 3 long, and the fields of the steps passed are set. *)
Theorem run_updates_keeps_session_ok (upper_char : Z -> pystr)
    (py_int : pystr -> option Z) (TARGET_CHAT_RAW : pystr) (ADMIN_IDS : gset Z)
    (us : list incoming) (w : World) :
  session_ok (user_data w) ->
  session_ok (user_data (run_updates upper_char py_int TARGET_CHAT_RAW ADMIN_IDS us w)).
Proof. apply run_updates_ok. Qed.

Lemma run_updates_keeps_session_ok_witness :
  session_ok
    (user_data (run_updates upper_table int_ascii [] Sample.ADMIN_IDS Demo.flow Demo.idle)).
Proof.
  apply (run_updates_keeps_session_ok upper_table int_ascii [] Sample.ADMIN_IDS
           Demo.flow Demo.idle).
  apply session_ok_empty.
Defined.

(** X11. Starting without a session, whenever the updates of a user leave
    the session at CONFIRM, number, category and description are all set, so
    the request that "send" renders shows them and never the placeholder;
    the category is a label and the description is at least 3 long. *)
Theorem confirm_has_all_fields (upper_char : Z -> pystr) (py_int : pystr -> option Z)
    (TARGET_CHAT_RAW : pystr) (ADMIN_IDS : gset Z) (us : list incoming) (w : World) :
  user_data w = ∅ ->
  let d := user_data (run_updates upper_char py_int TARGET_CHAT_RAW ADMIN_IDS us w) in
  step_of d = Some Step.CONFIRM ->
  exists n t x,
    d !! "number"%string = Some n /\ get_or_dash d "number" = n /\
    d !! "type"%string = Some t /\ get_or_dash d "type" = t /\
    d !! "description"%string = Some x /\ get_or_dash d "description" = x /\
    t ∈ concat PROBLEM_TYPES /\ 3 <= len x.
Proof.
  intros He d Hs.
  assert (Hok : session_ok d).
  { apply run_updates_ok. rewrite He. apply session_ok_empty. }
  destruct (ok_at_confirm d Hok Hs) as ([n Hn] & [t Ht] & [x Hx]).
  exists n, t, x. unfold get_or_dash. rewrite Hn, Ht, Hx. simpl.
  repeat split.
  - apply (ok_type d Hok), Ht.
  - apply (ok_description d Hok x Hx).
Qed.

Lemma confirm_has_all_fields_witness :
  exists n t x,
    user_data (run_updates upper_table int_ascii [] Sample.ADMIN_IDS Demo.flow Demo.idle)
    !! "number"%string = Some n /\
    get_or_dash
      (user_data (run_updates upper_table int_ascii [] Sample.ADMIN_IDS Demo.flow
                    Demo.idle)) "number" = n /\
    user_data (run_updates upper_table int_ascii [] Sample.ADMIN_IDS Demo.flow Demo.idle)
    !! "type"%string = Some t /\
    get_or_dash
      (user_data (run_updates upper_table int_ascii [] Sample.ADMIN_IDS Demo.flow
                    Demo.idle)) "type" = t /\
    user_data (run_updates upper_table int_ascii [] Sample.ADMIN_IDS Demo.flow Demo.idle)
    !! "description"%string = Some x /\
    get_or_dash
      (user_data (run_updates upper_table int_ascii [] Sample.ADMIN_IDS Demo.flow
                    Demo.idle)) "description" = x /\
    t ∈ concat PROBLEM_TYPES /\ 3 <= len x.
Proof.
  apply (confirm_has_all_fields upper_table int_ascii [] Sample.ADMIN_IDS Demo.flow
           Demo.idle eq_refl).
  vm_compute. reflexivity.
Defined.

(** ** Text messages at the edges *)

(** X12. A text outside a private chat, an update without a message, and a
    message without text are dropped: nothing is sent and nothing
    changes. *)
Theorem handle_message_ignores (upper_char : Z -> pystr) (py_int : pystr -> option Z)
    (TARGET_CHAT_RAW : pystr) (ADMIN_IDS : gset Z) (update : Update.t) (w : World) :
  Update.chat_is_private update = false \/
  Update.message update = None \/
  (exists m, Update.message update = Some m /\
             (Message.text m = None \/ Message.text m = Some [])) ->
  handle_message upper_char py_int TARGET_CHAT_RAW ADMIN_IDS update w = (Ret tt, w).
Proof.
  intros H. unfold handle_message.
  destruct (Update.chat_is_private update); [|reflexivity]. simpl.
  destruct H as [H|[H|(m & Hm & [H|H])]]; [discriminate| | |].
  - rewrite H. reflexivity.
  - rewrite Hm. simpl. rewrite H. reflexivity.
  - rewrite Hm. simpl. rewrite H. reflexivity.
Qed.

Lemma handle_message_ignores_witness :
  handle_message upper_table int_ascii [] Sample.ADMIN_IDS
    {| Update.effective_user := None; Update.chat_is_private := false;
       Update.chat_id := -100; Update.message := Some {| Message.text := Some (py "hi") |} |}
    Demo.idle
  = (Ret tt, Demo.idle).
Proof.
  apply (handle_message_ignores upper_table int_ascii [] Sample.ADMIN_IDS _ Demo.idle).
  left. reflexivity.
Defined.

Lemma gate_open (ADMIN_IDS : gset Z) (update : Update.t) (w : World) :
  turned_away ADMIN_IDS update w = false ->
  exists w1,
    reject_if_blocked ADMIN_IDS update w = (Ret false, w1) /\
    same_but_loaded w w1 /\
    turned_away ADMIN_IDS update w1 = false.
Proof.
  intros Ht.
  destruct (reject_if_blocked_run ADMIN_IDS update w) as (w1 & Hs & ->).
  rewrite Ht. exists w1. split; [reflexivity|]. split; [exact Hs|].
  destruct Hs as (_ & _ & _ & _ & _ & He). unfold turned_away in *. rewrite He.
  exact Ht.
Qed.

(** X13. A user who is turned away gets the denial and nothing else, from a
    text message as from [/start]: no session is created or changed, and
    the ban list and its file stay as they are. *)
Theorem turned_away_gets_denial (upper_char : Z -> pystr) (py_int : pystr -> option Z)
    (TARGET_CHAT_RAW : pystr) (ADMIN_IDS : gset Z) (update : Update.t)
    (m : Message.t) (raw : pystr) (w : World) :
  Update.chat_is_private update = true ->
  Update.message update = Some m ->
  Message.text m = Some raw ->
  truthy raw = true ->
  turned_away ADMIN_IDS update w = true ->
  let denial := [reply_text Msg.denied None None (outcome 0 w)] in
  let after_text :=
    snd (handle_message upper_char py_int TARGET_CHAT_RAW ADMIN_IDS update w) in
  let after_start := snd (start ADMIN_IDS update w) in
  (user_data after_text = user_data w /\ trace after_text = trace w ++ denial /\
   file after_text = file w /\ effective_blocked after_text = effective_blocked w) /\
  (user_data after_start = user_data w /\ trace after_start = trace w ++ denial /\
   file after_start = file w /\ effective_blocked after_start = effective_blocked w).
Proof.
  intros Hp Hm Ht Hraw Haway denial after_text after_start.
  subst denial after_text after_start.
  destruct (reject_if_blocked_run ADMIN_IDS update w)
    as (w1 & (Hd & Hf & Htr & Hn & _ & He) & E).
  rewrite Haway, (gate_reply_run _ m) in E by exact Hm.
  assert (Ho : outcome 0 w1 = outcome 0 w) by (unfold outcome; rewrite Hn; reflexivity).
  rewrite Ho in E.
  assert (K : forall rest : bool -> M unit,
             rest true = ret tt ->
             let w' := snd ((b <- reject_if_blocked ADMIN_IDS update ;; rest b) w) in
             user_data w' = user_data w /\
             trace w' = trace w ++ [reply_text Msg.denied None None (outcome 0 w)] /\
             file w' = file w /\ effective_blocked w' = effective_blocked w).
  { intros rest Hrest. unfold bind. rewrite E.
    destruct (outcome 0 w); [|rewrite Hrest]; simpl; rewrite Htr;
      (split; [exact Hd|]); (split; [reflexivity|]); (split; [exact Hf|]);
      exact He. }
  split.
  - unfold handle_message. rewrite Hp, Hm. simpl. rewrite Ht, Hraw. simpl.
    apply (K (fun b => if b then ret tt else _)). reflexivity.
  - unfold start. apply (K (fun b => if b then ret tt else _)). reflexivity.
Qed.

Lemma turned_away_gets_denial_witness :
  user_data (snd (start Sample.ADMIN_IDS (Sample.user 555 (py "/start")) Sample.banned555))
  = ∅.
Proof.
  apply (turned_away_gets_denial upper_table int_ascii [] Sample.ADMIN_IDS
           (Sample.user 555 (py "/start")) _ (py "/start") Sample.banned555
           eq_refl eq_refl eq_refl eq_refl eq_refl).
Defined.

Lemma keywords_distinct : TXT.restart <> TXT.cancel.
Proof. vm_compute. discriminate. Qed.

(** X14. The two keywords work at every step: from a user who is not turned
    away, the cancel label clears the session and the restart label leaves
    a session that holds the step NUMBER and nothing else. *)
Theorem keywords_at_any_step (upper_char : Z -> pystr) (py_int : pystr -> option Z)
    (TARGET_CHAT_RAW : pystr) (ADMIN_IDS : gset Z) (update : Update.t)
    (m : Message.t) (raw : pystr) (w : World) :
  Update.chat_is_private update = true ->
  Update.message update = Some m ->
  Message.text m = Some raw ->
  truthy raw = true ->
  turned_away ADMIN_IDS update w = false ->
  let d' :=
    user_data (snd (handle_message upper_char py_int TARGET_CHAT_RAW ADMIN_IDS
                      update w)) in
  (strip raw = TXT.cancel -> d' = ∅) /\
  (strip raw = TXT.restart -> d' = <["step"%string := Step.NUMBER]> ∅).
Proof.
  intros Hp Hm Ht Hraw Hopen d'. subst d'.
  destruct (gate_open ADMIN_IDS update w Hopen) as (w1 & E & _ & Hopen1).
  unfold handle_message. rewrite Hp, Hm. simpl. rewrite Ht, Hraw. simpl.
  unfold bind. rewrite E. split; intros Hk; rewrite Hk.
  - destruct (decide (TXT.cancel = TXT.cancel)) as [_|N]; [|destruct (N eq_refl)].
    rewrite cancel_session, Hopen1. reflexivity.
  - destruct (decide (TXT.restart = TXT.cancel)) as [K|_];
      [destruct (keywords_distinct K)|].
    destruct (decide (TXT.restart = TXT.restart)) as [_|N]; [|destruct (N eq_refl)].
    rewrite (proj1 (reset_session ADMIN_IDS update w1)), Hopen1. reflexivity.
Qed.

Lemma keywords_at_any_step_witness :
  user_data
    (snd (handle_message upper_table int_ascii [] Sample.ADMIN_IDS
            (Sample.user 12345 TXT.cancel) (Sample.session Sample.at_confirm [])))
  = ∅.
Proof.
  apply (proj1 (keywords_at_any_step upper_table int_ascii [] Sample.ADMIN_IDS
                  (Sample.user 12345 TXT.cancel) _ TXT.cancel
                  (Sample.session Sample.at_confirm [])
                  eq_refl eq_refl eq_refl eq_refl eq_refl)).
  vm_compute. reflexivity.
Defined.

(** X15. Without a session (no step, or an empty one) a text that is no
    keyword changes nothing and is answered with the hint to use /start; with
    a step that is none of the four, the session is reset to NUMBER. *)
Theorem no_step_or_unknown_step (upper_char : Z -> pystr) (py_int : pystr -> option Z)
    (TARGET_CHAT_RAW : pystr) (ADMIN_IDS : gset Z) (update : Update.t)
    (m : Message.t) (raw : pystr) (w : World) :
  Update.chat_is_private update = true ->
  Update.message update = Some m ->
  Message.text m = Some raw ->
  truthy raw = true ->
  turned_away ADMIN_IDS update w = false ->
  strip raw <> TXT.cancel ->
  strip raw <> TXT.restart ->
  let w' := snd (handle_message upper_char py_int TARGET_CHAT_RAW ADMIN_IDS update w) in
  (step_of (user_data w) = None \/ step_of (user_data w) = Some [] ->
   user_data w' = user_data w /\
   trace w'
   = trace w ++
     [reply_text Msg.start_hint (Some ReplyKeyboardRemove) None (outcome 0 w)]) /\
  (forall s, step_of (user_data w) = Some s -> truthy s = true ->
     s ∉ [Step.NUMBER; Step.TYPE; Step.DESCRIPTION; Step.CONFIRM] ->
     user_data w' = <["step"%string := Step.NUMBER]> ∅).
Proof.
  intros Hp Hm Ht Hraw Hopen Hc Hr w'. subst w'.
  destruct (gate_open ADMIN_IDS update w Hopen)
    as (w1 & E & (Hd & _ & Htr & Hn & _) & Hopen1).
  unfold handle_message. rewrite Hp, Hm. simpl. rewrite Ht, Hraw. simpl.
  unfold bind. rewrite E.
  destruct (decide (strip raw = TXT.cancel)) as [K|_]; [destruct (Hc K)|].
  destruct (decide (strip raw = TXT.restart)) as [K|_]; [destruct (Hr K)|].
  cbv beta zeta. unfold step_of. rewrite <- Hd. unfold pystr in *. split.
  - intros [Hs|Hs]; rewrite Hs; simpl;
      rewrite (safe_reply_run _ m) by exact Hm; simpl;
      unfold outcome; rewrite Htr, Hn; split; reflexivity.
  - intros s Hs Hset Hnot. rewrite Hs. simpl. rewrite Hset. simpl.
    rewrite !not_elem_of_cons in Hnot. destruct Hnot as (N1 & N2 & N3 & N4 & _).
    repeat case_decide; try contradiction.
    rewrite (proj1 (reset_session ADMIN_IDS update w1)), Hopen1. reflexivity.
Qed.

Lemma no_step_or_unknown_step_witness :
  user_data
    (snd (handle_message upper_table int_ascii [] Sample.ADMIN_IDS Sample.alice
            Demo.idle))
  = ∅.
Proof.
  apply (proj1 (no_step_or_unknown_step upper_table int_ascii [] Sample.ADMIN_IDS
                  Sample.alice _ (py "hello") Demo.idle
                  eq_refl eq_refl eq_refl eq_refl eq_refl
                  ltac:(vm_compute; discriminate) ltac:(vm_compute; discriminate))).
  left. reflexivity.
Defined.




(** ** What the conversation never touches *)

Lemma quiet_ret {A} (a : A) : quiet (ret a).
Proof. intros w. split; reflexivity. Qed.

Lemma quiet_bind {A B} (m : M A) (k : A -> M B) :
  quiet m -> (forall a, quiet (k a)) -> quiet (bind m k).
Proof.
  intros Hm Hk w. unfold bind. specialize (Hm w).
  destruct (m w) as [[a|e] w1]; simpl in *; [|exact Hm].
  destruct (Hk a w1) as [H1 H2]. destruct Hm as [H3 H4]. split; congruence.
Qed.

Lemma quiet_try_except {A} (body handler : M A) (catches : exn -> bool) :
  quiet body -> quiet handler -> quiet (try_except body catches handler).
Proof.
  intros Hb Hh w. unfold try_except. specialize (Hb w).
  destruct (body w) as [[a|e] w1]; simpl in *; [exact Hb|].
  destruct (catches e); [|exact Hb].
  destruct (Hh w1) as [H1 H2]. destruct Hb as [H3 H4]. split; congruence.
Qed.

Lemma quiet_at {A} (m : World -> M A) :
  (forall w0, quiet (m w0)) -> quiet (fun w => m w w).
Proof. intros H w. apply (H w w). Qed.

Lemma quiet_modify f : quiet (modify_user_data f).
Proof. intros w. split; reflexivity. Qed.

Lemma quiet_set_item key value : quiet (set_item key value).
Proof. apply quiet_modify. Qed.

Lemma quiet_api_call call : quiet (api_call call).
Proof. intros w. split; reflexivity. Qed.

Lemma quiet_print text : quiet (py_print text).
Proof. intros w. split; reflexivity. Qed.

Lemma quiet_safe_reply update text reply_markup parse_mode :
  quiet (safe_reply update text reply_markup parse_mode).
Proof.
  unfold safe_reply. destruct (Update.message update);
    [apply quiet_api_call | apply quiet_ret].
Qed.

Lemma quiet_reject ADMIN_IDS update : quiet (reject_if_blocked ADMIN_IDS update).
Proof.
  intros w.
  destruct (reject_if_blocked_run ADMIN_IDS update w)
    as (w1 & (_ & Hf & _ & _ & _ & He) & ->).
  destruct (turned_away ADMIN_IDS update w); [|split; assumption].
  destruct (quiet_bind (safe_reply update Msg.denied None None) (fun _ => ret true)
              (quiet_safe_reply _ _ _ _) (fun _ => quiet_ret true) w1) as [H1 H2].
  split; congruence.
Qed.

Lemma quiet_send_request py_int TARGET_CHAT_RAW update :
  quiet (send_request py_int TARGET_CHAT_RAW update).
Proof.
  intros w. unfold send_request.
  destruct (get_target_chat py_int TARGET_CHAT_RAW) as [chat|].
  - exact (quiet_try_except _ _ is_TimedOut (quiet_api_call _) (quiet_api_call _) (tick w)).
  - exact (quiet_print _ (tick w)).
Qed.

(** Splits a handler into its calls, each of which is quiet. *)
Ltac quiet :=
  repeat match goal with
         | |- quiet (if ?b then _ else _) => destruct b
         | |- quiet (ret _) => apply quiet_ret
         | |- quiet (safe_reply _ _ _ _) => apply quiet_safe_reply
         | |- quiet (set_item _ _) => apply quiet_set_item
         | |- quiet (modify_user_data _) => apply quiet_modify
         | |- quiet (reject_if_blocked _ _) => apply quiet_reject
         | |- quiet (send_request _ _ _) => apply quiet_send_request
         | |- quiet (try_except _ _ _) => apply quiet_try_except
         | |- quiet (bind _ _) => apply quiet_bind; [|intros ?]
         | |- quiet _ => progress cbv beta zeta
         end.

Lemma quiet_steps upper_char py_int TARGET_CHAT_RAW update text :
  quiet (handle_number_step upper_char update text) /\
  quiet (handle_type_step update text) /\
  quiet (handle_description_step update text) /\
  quiet (handle_confirm_step py_int TARGET_CHAT_RAW update text).
Proof.
  split; [|split; [|split]].
  - unfold handle_number_step, ask_for_type. quiet.
  - unfold handle_type_step, ask_for_description. quiet.
  - unfold handle_description_step. quiet.
    apply (quiet_at (fun w0 => safe_reply update (build_preview_html (user_data w0))
                                 (Some CONFIRM_KB) (Some ParseMode.HTML))).
    intros w0. quiet.
  - unfold handle_confirm_step, ask_for_type, ask_for_description. quiet.
Qed.

Lemma quiet_commands ADMIN_IDS update :
  quiet (cancel ADMIN_IDS update) /\ quiet (restart ADMIN_IDS update) /\
  quiet (start ADMIN_IDS update) /\ quiet (help_cmd ADMIN_IDS update) /\
  quiet (chatid ADMIN_IDS update).
Proof.
  unfold cancel, restart, start, help_cmd, chatid, reset_flow, ask_for_number.
  (split; [|split; [|split; [|split]]]); quiet.
Qed.

Lemma quiet_blocked_users : quiet blocked_users.
Proof.
  intros w. destruct (blocked_users_run w) as (w1 & -> & Hb & _ & Hf & _).
  simpl. split; [exact Hf|]. unfold effective_blocked at 1. rewrite Hb. reflexivity.
Qed.

Lemma quiet_banlist ADMIN_IDS update : quiet (banlist ADMIN_IDS update).
Proof.
  unfold banlist. destruct (is_admin ADMIN_IDS update); simpl;
    [|apply quiet_safe_reply].
  apply quiet_bind; [apply quiet_blocked_users|]. intros users.
  destruct (sorted users); apply quiet_safe_reply.
Qed.

Lemma quiet_handle_message upper_char py_int TARGET_CHAT_RAW ADMIN_IDS update :
  quiet (handle_message upper_char py_int TARGET_CHAT_RAW ADMIN_IDS update).
Proof.
  unfold handle_message.
  destruct (Update.chat_is_private update); simpl; [|apply quiet_ret].
  destruct (Update.message update ≫= Message.text) as [raw|]; [|apply quiet_ret].
  destruct (truthy raw); simpl; [|apply quiet_ret].
  destruct (quiet_commands ADMIN_IDS update) as (Qc & Qr & _).
  destruct (quiet_steps upper_char py_int TARGET_CHAT_RAW update (strip raw))
    as (Q1 & Q2 & Q3 & Q4).
  apply quiet_bind; [apply quiet_reject|]. intros [|]; [apply quiet_ret|].
  destruct (decide (strip raw = TXT.cancel)); [exact Qc|].
  destruct (decide (strip raw = TXT.restart)); [exact Qr|].
  intros w. cbv beta zeta.
  destruct (negb (truthy (default [] (user_data w !! "step"%string))));
    [apply quiet_safe_reply|].
  repeat case_decide;
    match goal with
    | |- context [handle_number_step] => apply Q1
    | |- context [handle_type_step] => apply Q2
    | |- context [handle_description_step] => apply Q3
    | |- context [handle_confirm_step] => apply Q4
    | |- context [restart] => apply Qr
    end.
Qed.

(** X17. Only [/ban] and [/unban] change who is banned: every other
    update, whoever sends it and whatever the network does, leaves the ban
    list in force and its file as they are. *)
Theorem conversation_keeps_ban_list (upper_char : Z -> pystr)
    (py_int : pystr -> option Z) (TARGET_CHAT_RAW : pystr) (ADMIN_IDS : gset Z)
    (u : incoming) (w : World) :
  is_ban_command u = false ->
  let w' := snd (handle_update upper_char py_int TARGET_CHAT_RAW ADMIN_IDS u w) in
  file w' = file w /\ effective_blocked w' = effective_blocked w.
Proof.
  intros Hu. simpl.
  destruct u as [update|update|update|update|update args|update args|update|update];
    try discriminate; simpl.
  - apply (proj1 (proj2 (proj2 (quiet_commands ADMIN_IDS update)))).
  - apply (proj1 (proj2 (proj2 (proj2 (quiet_commands ADMIN_IDS update))))).
  - apply (proj1 (quiet_commands ADMIN_IDS update)).
  - apply (proj2 (proj2 (proj2 (proj2 (quiet_commands ADMIN_IDS update))))).
  - apply quiet_banlist.
  - apply quiet_handle_message.
Qed.

Lemma conversation_keeps_ban_list_witness :
  effective_blocked
    (snd (handle_update upper_table int_ascii [] Sample.ADMIN_IDS
            (text_message (Sample.user 12345 TXT.cancel)) Sample.banned555))
  = {[555]}.
Proof.
  apply (conversation_keeps_ban_list upper_table int_ascii [] Sample.ADMIN_IDS
           (text_message (Sample.user 12345 TXT.cancel)) Sample.banned555 eq_refl).
Defined.

(** ** The forward chain *)

(** X18. The three handlers of the forward chain compose: whatever the
    network does to the replies, after a plate text, a category label and a
    description of trimmed length at least 3 the session is at CONFIRM and
    holds the normalized plate, the label and the trimmed description, and
    the last reply is the preview rendered from that very session. *)
Theorem forward_chain (upper_char : Z -> pystr) (update : Update.t) (m : Message.t)
    (plate category description : pystr) (w : World) :
  Update.message update = Some m ->
  category ∈ concat PROBLEM_TYPES ->
  3 <= len (strip description) ->
  let w1 := snd (handle_number_step upper_char update plate w) in
  let w2 := snd (handle_type_step update category w1) in
  let w3 := snd (handle_description_step update description w2) in
  user_data w3 !! "step"%string = Some Step.CONFIRM /\
  user_data w3 !! "number"%string = Some (normalize_plate upper_char plate) /\
  user_data w3 !! "type"%string = Some category /\
  user_data w3 !! "description"%string = Some (strip description) /\
  trace w3
  = trace w2 ++
    [reply_text (build_preview_html (user_data w3)) (Some CONFIRM_KB)
       (Some ParseMode.HTML) (outcome 0 w2)].
Proof.
  intros Hm Hc Hl w1 w2 w3.
  assert (E3 : user_data w3
               = <["step"%string := Step.CONFIRM]>
                   (<["description"%string := strip description]> (user_data w2))).
  { subst w3. rewrite handle_description_step_session.
    destruct (Z.ltb_spec (len (strip description)) 3); [lia | reflexivity]. }
  assert (E2 : user_data w2
               = <["step"%string := Step.DESCRIPTION]>
                   (<["type"%string := category]> (user_data w1))).
  { subst w2. rewrite handle_type_step_session.
    rewrite (bool_decide_eq_true_2 _ Hc). reflexivity. }
  assert (E1 : user_data w1
               = <["step"%string := Step.TYPE]>
                   (<["number"%string := normalize_plate upper_char plate]>
                      (user_data w))).
  { subst w1. apply handle_number_step_session. }
  split; [rewrite E3; look; reflexivity|].
  split; [rewrite E3, E2, E1; look; reflexivity|].
  split; [rewrite E3, E2; look; reflexivity|].
  split; [rewrite E3; look; reflexivity|].
  rewrite E3. subst w3. unfold handle_description_step.
  destruct (Z.ltb_spec (len (strip description)) 3); [lia|].
  unfold bind, set_item, modify_user_data. simpl.
  rewrite (safe_reply_run _ m) by exact Hm. reflexivity.
Qed.

Lemma forward_chain_witness :
  user_data
    (snd (handle_description_step Sample.alice (py " flat tyre ")
            (snd (handle_type_step Sample.alice Sample.label
                    (snd (handle_number_step upper_table Sample.alice (py " ab 12-34 ")
                            (Sample.session Sample.at_number [Some TimedOut])))))))
  !! "number"%string = Some (py "AB1234").
Proof.
  apply (forward_chain upper_table Sample.alice _ (py " ab 12-34 ") Sample.label
           (py " flat tyre ") (Sample.session Sample.at_number [Some TimedOut])
           eq_refl).
  - apply (bool_decide_unpack (Sample.label ∈ concat PROBLEM_TYPES)).
    vm_compute. exact I.
  - vm_compute. discriminate.
Defined.

(** ** Escaping and normalizing *)

Lemma escape_char_safe (c : Z) :
  Forall (fun d => d <> 60 /\ d <> 62 /\ d <> 34 /\ d <> 39) (escape_char c).
Proof.
  unfold escape_char.
  repeat match goal with
         | |- context [?a =? ?b] => destruct (Z.eqb_spec a b)
         end;
    try (vm_compute; repeat constructor; discriminate).
  repeat constructor; assumption.
Qed.

Lemma html_escape_safe (s : pystr) :
  Forall (fun d => d <> 60 /\ d <> 62 /\ d <> 34 /\ d <> 39) (html_escape s).
Proof.
  unfold html_escape. induction s as [|c s IH]; simpl; [constructor|].
  apply Forall_app. split; [apply escape_char_safe | exact IH].
Qed.

Lemma html_escape_no_bracket (s : pystr) (c : Z) :
  c = 60 \/ c = 62 -> count_occ Z.eq_dec (html_escape s) c = 0%nat.
Proof.
  intros Hc. apply count_occ_not_In. intros Hin.
  pose proof (html_escape_safe s) as H. rewrite List.Forall_forall in H.
  destruct (H c Hin) as (H1 & H2 & _). destruct Hc; contradiction.
Qed.

(** X19. The fields cannot add markup to what is rendered: the number of
    opening and of closing angle brackets in the preview and in the request
    that is dispatched is the same for every session, sender and time. *)
Theorem rendered_markup_fixed (update update' : Update.t) (w w' : World) (c : Z) :
  c = 60 \/ c = 62 ->
  count_occ Z.eq_dec (build_preview_html (user_data w)) c
  = count_occ Z.eq_dec (build_preview_html (user_data w')) c /\
  count_occ Z.eq_dec (build_dispatch_html update w) c
  = count_occ Z.eq_dec (build_dispatch_html update' w') c.
Proof.
  intros Hc. unfold build_preview_html, build_dispatch_html.
  cbv zeta.
  repeat match goal with
         | |- context [html_escape ?s] =>
             let H := fresh "H" in
             pose proof (html_escape_no_bracket s c Hc) as H;
             revert H; generalize (html_escape s); intros ? H
         end.
  rewrite !count_occ_app.
  repeat match goal with
         | H : count_occ Z.eq_dec ?e c = 0%nat |- _ => rewrite H; clear H
         end.
  split; reflexivity.
Qed.

Lemma rendered_markup_fixed_witness :
  count_occ Z.eq_dec
    (build_preview_html (user_data (Sample.session Sample.at_confirm []))) 60
  = count_occ Z.eq_dec
      (build_preview_html (user_data (Sample.session Sample.at_description []))) 60.
Proof.
  exact (proj1 (rendered_markup_fixed Sample.alice Sample.alice
                  (Sample.session Sample.at_confirm [])
                  (Sample.session Sample.at_description [])
                  60 (or_introl eq_refl))).
Defined.

Lemma strip_all_space (s : pystr) :
  Forall (fun c => is_space c = true) s -> strip s = [].
Proof.
  intros H. unfold strip.
  assert (E : lstrip s = []).
  { induction H as [|c s Hc Hs IH]; simpl; [reflexivity|]. rewrite Hc. exact IH. }
  rewrite E. reflexivity.
Qed.

(** X20. Whatever the case table, the result of [normalize_plate] holds no
    space and no hyphen, and a text of white space only, the empty text
    included, normalizes to the empty string. *)
Theorem normalize_plate_result (upper_char : Z -> pystr) (value : pystr) :
  Forall (fun c => c <> 32 /\ c <> 45) (normalize_plate upper_char value) /\
  (Forall (fun c => is_space c = true) value -> normalize_plate upper_char value = []).
Proof.
  split; [apply normalize_plate_clean|].
  intros H. unfold normalize_plate. rewrite (strip_all_space value H). reflexivity.
Qed.

(** ** The operator list *)

Lemma split_char_nonempty (sep : Z) (s : pystr) : split_char sep s <> [].
Proof.
  destruct s as [|c s]; simpl; [discriminate|].
  destruct (c =? sep); [discriminate|].
  destruct (split_char sep s); discriminate.
Qed.

Lemma split_char_app (sep : Z) (a b : pystr) :
  split_char sep (a ++ sep :: b) = split_char sep a ++ split_char sep b.
Proof.
  induction a as [|d a IH]; simpl.
  - rewrite Z.eqb_refl. reflexivity.
  - destruct (d =? sep); [rewrite IH; reflexivity|].
    rewrite IH. pose proof (split_char_nonempty sep a) as Hne.
    destruct (split_char sep a) as [|p ps]; [contradiction | reflexivity].
Qed.

Lemma fold_admin_chunks (py_int : pystr -> option Z) (chunks : list pystr)
    (init : gset Z) :
  fold_left (add_admin_chunk py_int) chunks init
  = init ∪ fold_left (add_admin_chunk py_int) chunks ∅.
Proof.
  revert init. induction chunks as [|c chunks IH]; intros init; simpl.
  - apply set_eq. intros y. rewrite elem_of_union, elem_of_empty. tauto.
  - rewrite (IH (add_admin_chunk py_int init c)).
    rewrite (IH (add_admin_chunk py_int ∅ c)).
    unfold add_admin_chunk. destruct (negb (truthy (strip c))).
    + apply set_eq. intros y. rewrite !elem_of_union, elem_of_empty. tauto.
    + destruct (py_int (strip c)) as [n|];
        apply set_eq; intros y; rewrite !elem_of_union, ?elem_of_empty; tauto.
Qed.

Lemma parse_admin_ids_fold (py_int : pystr -> option Z) (raw : pystr) :
  parse_admin_ids py_int raw
  = fold_left (add_admin_chunk py_int) (split_char 44 raw) ∅.
Proof.
  unfold parse_admin_ids. destruct raw as [|c raw]; reflexivity.
Qed.

(** X21. [parse_admin_ids] reads a comma-separated list piece by piece: the
    result for [a,b] is the union of the results for [a] and for [b]; a
    piece without comma gives the integer it holds when [int] accepts its
    trimmed text and nothing otherwise, so a malformed or empty piece never
    costs the others. *)
Theorem parse_admin_ids_pieces (py_int : pystr -> option Z) :
  (forall a b,
     parse_admin_ids py_int (a ++ 44 :: b)
     = parse_admin_ids py_int a ∪ parse_admin_ids py_int b) /\
  (forall piece,
     Forall (fun c => c <> 44) piece ->
     parse_admin_ids py_int piece
     = if truthy (strip piece)
       then match py_int (strip piece) with Some n => {[n]} | None => ∅ end
       else ∅).
Proof.
  split.
  - intros a b. rewrite !parse_admin_ids_fold, split_char_app, fold_left_app.
    apply fold_admin_chunks.
  - intros piece Hp. rewrite parse_admin_ids_fold.
    assert (E : split_char 44 piece = [piece]).
    { induction Hp as [|c s Hc Hs IH]; simpl; [reflexivity|].
      destruct (Z.eqb_spec c 44); [contradiction|]. rewrite IH. reflexivity. }
    rewrite E. simpl. unfold add_admin_chunk.
    destruct (truthy (strip piece)); simpl; [|reflexivity].
    destruct (py_int (strip piece)); [|reflexivity].
    apply set_eq. intros y. rewrite elem_of_union, elem_of_empty. tauto.
Qed.

(** ** The dispatcher, whatever the configuration *)

(** X22. With or without a recipient, [send_request] makes one or two
    hand-overs of the rendered request and nothing else: it sends no reply
    to the user and touches neither the session nor the ban list. *)
Theorem send_request_only_dispatches (py_int : pystr -> option Z)
    (TARGET_CHAT_RAW : pystr) (update : Update.t) (w : World) :
  let w' := snd (send_request py_int TARGET_CHAT_RAW update w) in
  (exists evs,
     trace w' = trace w ++ evs /\
     (1 <= length evs <= 2)%nat /\
     Forall (dispatches (build_dispatch_html update w)) evs) /\
  user_data w' = user_data w /\ file w' = file w /\
  effective_blocked w' = effective_blocked w.
Proof.
  intros w'. subst w'.
  split; [|split; [apply send_request_user_data | apply quiet_send_request]].
  rewrite send_request_run. simpl.
  destruct (get_target_chat py_int TARGET_CHAT_RAW) as [chat|]; simpl.
  - destruct (outcome 0 w) as [[|]|]; simpl.
    + eexists [_; _]. rewrite <- app_assoc. split; [reflexivity|].
      split; [simpl; lia|]. repeat constructor.
    + eexists [_]. split; [reflexivity|]. split; [simpl; lia|]. repeat constructor.
    + eexists [_]. split; [reflexivity|]. split; [simpl; lia|]. repeat constructor.
  - eexists [_]. split; [reflexivity|]. split; [simpl; lia|]. repeat constructor.
Qed.

(** X23. After a "send" whose dispatch failed the session is as it was, and
    a second "send" renders the request from the same session and sender,
    with the time that is read then; when that dispatch succeeds and the
    completion message is delivered, the session is cleared. *)
Theorem send_can_be_retried (py_int : pystr -> option Z) (TARGET_CHAT_RAW : pystr)
    (update : Update.t) (m : Message.t) (e : exn) (w : World) :
  Update.message update = Some m ->
  fst (send_request py_int TARGET_CHAT_RAW update w) = Raise e ->
  let w1 := snd (handle_confirm_step py_int TARGET_CHAT_RAW update TXT.send w) in
  let w2 := snd (send_request py_int TARGET_CHAT_RAW update w1) in
  user_data w1 = user_data w /\
  now w1 = now (tick w) /\
  build_dispatch_html update w1 = build_dispatch_html update (with_now (now w1) w) /\
  (fst (send_request py_int TARGET_CHAT_RAW update w1) = Ret tt ->
   outcome 0 w2 = None ->
   user_data (snd (handle_confirm_step py_int TARGET_CHAT_RAW update TXT.send w1)) = ∅).
Proof.
  intros Hm Hfail w1 w2.
  assert (H1 : user_data w1 = user_data w /\ now w1 = now (tick w)).
  { subst w1. rewrite handle_confirm_step_send_run.
    pose proof (send_request_user_data py_int TARGET_CHAT_RAW update w) as Hd.
    pose proof (proj1 (send_request_clock py_int TARGET_CHAT_RAW update w)) as Hn.
    destruct (send_request py_int TARGET_CHAT_RAW update w) as [[[]|e1] w0];
      simpl in *; [discriminate|].
    destruct (safe_reply_frame update Msg.send_failed (Some CONFIRM_KB) None w0)
      as (E1 & _ & _ & E4).
    split; congruence. }
  destruct H1 as [Hd Hn].
  split; [exact Hd|]. split; [exact Hn|].
  split; [apply build_dispatch_html_session, Hd|].
  intros Hok Ho. subst w2. rewrite handle_confirm_step_send_run.
  destruct (send_request py_int TARGET_CHAT_RAW update w1) as [[[]|e1] w0];
    simpl in *; [|discriminate].
  rewrite (safe_reply_run _ m) by exact Hm. rewrite Ho. reflexivity.
Qed.

Lemma send_can_be_retried_witness :
  user_data
    (snd (handle_confirm_step int_ascii (py "-100123") Sample.alice TXT.send
            (snd (handle_confirm_step int_ascii (py "-100123") Sample.alice TXT.send
                    (Sample.session Sample.at_confirm [Some OtherError])))))
  = ∅.
Proof.
  apply (proj2 (proj2 (proj2 (send_can_be_retried int_ascii (py "-100123") Sample.alice _
                         OtherError (Sample.session Sample.at_confirm [Some OtherError])
                         eq_refl eq_refl)))).
  - reflexivity.
  - reflexivity.
Defined.
